(** * Hybrid orchestration service: a shallow embedding of
    [app/services/orchestration_service.py] (class
    [IntelligentHybridOrchestrator]) and its properties. *)

From Stdlib Require Import String Ascii List ZArith Bool Lia Sorted.
Import ListNotations.
Open Scope string_scope.
Open Scope Z_scope.

(** ** Character and string helpers (Python [str] methods)

    A Python [str] is represented by its UTF-8 encoding. [chars s] is
    the list of its characters (code points), each as its bytes: a new
    character starts at every byte that does not continue a multi-byte
    sequence. [len], slicing, [isdigit], [isspace], [strip] and
    [split] work on these characters, with the character classes of
    CPython 3.11 (Unicode 14.0.0). Equality, concatenation, [in] and
    [startswith] are the same on the bytes as on the characters. *)

Module Str.

(** A byte [10xxxxxx]. *)
Definition is_cont (c : ascii) : bool :=
  let n := nat_of_ascii c in (128 <=? n)%nat && (n <? 192)%nat.

Definition starts_cont (s : string) : bool :=
  match s with String c _ => is_cont c | EmptyString => false end.

Fixpoint chars (s : string) : list string :=
  match s with
  | EmptyString => []
  | String c r =>
      match chars r with
      | ch :: rest =>
          if starts_cont ch then String c ch :: rest
          else String c EmptyString :: ch :: rest
      | [] => [String c EmptyString]
      end
  end.

(** The code point of one character ([-1] for bytes that do not start
    a character, which no Python string has). *)
Definition code_point (ch : string) : Z :=
  match ch with
  | EmptyString => -1
  | String c r =>
      let b := Z.of_nat (nat_of_ascii c) in
      if is_cont c then -1
      else
        let lead :=
          if b <? 128 then b
          else if b <? 224 then Z.land b 31
          else if b <? 240 then Z.land b 15
          else Z.land b 7 in
        fold_left (fun acc d => acc * 64 + Z.land (Z.of_nat (nat_of_ascii d)) 63)
                  (list_ascii_of_string r) lead
  end.

Definition in_ranges (z : Z) (l : list (Z * Z)) : bool :=
  existsb (fun r => (fst r <=? z) && (z <=? snd r)) l.

(** The code points with [str.isspace()]; [strip()] and [split()] use
    the same set. *)
Definition space_ranges : list (Z * Z) :=
  [(9, 13); (28, 32); (133, 133); (160, 160); (5760, 5760); (8192, 8202);
   (8232, 8233); (8239, 8239); (8287, 8287); (12288, 12288)].

(** The code points with [str.isdigit()]. *)
Definition digit_ranges : list (Z * Z) :=
  [(48, 57); (178, 179); (185, 185); (1632, 1641); (1776, 1785); (1984, 1993);
   (2406, 2415); (2534, 2543); (2662, 2671); (2790, 2799); (2918, 2927); (3046, 3055);
   (3174, 3183); (3302, 3311); (3430, 3439); (3558, 3567); (3664, 3673); (3792, 3801);
   (3872, 3881); (4160, 4169); (4240, 4249); (4969, 4977); (6112, 6121); (6160, 6169);
   (6470, 6479); (6608, 6618); (6784, 6793); (6800, 6809); (6992, 7001); (7088, 7097);
   (7232, 7241); (7248, 7257); (8304, 8304); (8308, 8313); (8320, 8329); (9312, 9320);
   (9332, 9340); (9352, 9360); (9450, 9450); (9461, 9469); (9471, 9471);
   (10102, 10110); (10112, 10120); (10122, 10130); (42528, 42537); (43216, 43225);
   (43264, 43273); (43472, 43481); (43504, 43513); (43600, 43609); (44016, 44025);
   (65296, 65305); (66720, 66729); (68160, 68163); (68912, 68921); (69216, 69224);
   (69714, 69722); (69734, 69743); (69872, 69881); (69942, 69951); (70096, 70105);
   (70384, 70393); (70736, 70745); (70864, 70873); (71248, 71257); (71360, 71369);
   (71472, 71481); (71904, 71913); (72016, 72025); (72784, 72793); (73040, 73049);
   (73120, 73129); (92768, 92777); (92864, 92873); (93008, 93017); (120782, 120831);
   (123200, 123209); (123632, 123641); (125264, 125273); (127232, 127242);
   (130032, 130041)].

(** [str.isdigit] and [str.isspace] on one character. *)
Definition is_digit (ch : string) : bool := in_ranges (code_point ch) digit_ranges.

Definition is_space (ch : string) : bool := in_ranges (code_point ch) space_ranges.

(** [''.join(l)]. *)
Definition join (l : list string) : string := fold_right String.append EmptyString l.

(** [len(s)], [s[:n]] and [s[n:]]. *)
Definition len (s : string) : nat := List.length (chars s).

Definition slice_to (n : nat) (s : string) : string := join (firstn n (chars s)).

Definition slice_from (n : nat) (s : string) : string := join (skipn n (chars s)).

(** [''.join(filter(p, s))]. *)
Definition filter_str (p : string -> bool) (s : string) : string :=
  join (filter p (chars s)).

(** [str.lstrip()] / [str.rstrip()] / [str.strip()]. *)
Fixpoint lstrip_chars (l : list string) : list string :=
  match l with
  | ch :: r => if is_space ch then lstrip_chars r else l
  | [] => []
  end.

Definition strip_chars (l : list string) : list string :=
  rev (lstrip_chars (rev (lstrip_chars l))).

Definition strip (s : string) : string := join (strip_chars (chars s)).

(** Truthiness of a Python string: non-empty. *)
Definition truthy (s : string) : bool :=
  match s with EmptyString => false | _ => true end.

(** [needle in haystack]. *)
Fixpoint contains (needle hay : string) : bool :=
  match hay with
  | EmptyString => String.prefix needle hay
  | String _ r => String.prefix needle hay || contains needle r
  end.

(** [str.split()] with no separator: maximal runs of non-space
    characters; [cur] holds the current run, reversed. *)
Fixpoint split_chars (cur : list string) (l : list string) : list string :=
  match l with
  | [] => match cur with [] => [] | _ => [join (rev cur)] end
  | ch :: r =>
      if is_space ch
      then match cur with
           | [] => split_chars [] r
           | _ => join (rev cur) :: split_chars [] r
           end
      else split_chars (ch :: cur) r
  end.

Definition split (s : string) : list string := split_chars [] (chars s).

(** [str.lower()] and [str.title()] on ASCII letters, byte by byte: the
    bytes of other characters are kept. Python's Unicode case mappings
    are not modelled: these agree with Python on ASCII text. *)
Definition lower_char (c : ascii) : ascii :=
  let n := nat_of_ascii c in
  if (65 <=? n)%nat && (n <=? 90)%nat then ascii_of_nat (n + 32) else c.

Definition upper_char (c : ascii) : ascii :=
  let n := nat_of_ascii c in
  if (97 <=? n)%nat && (n <=? 122)%nat then ascii_of_nat (n - 32) else c.

Definition is_alpha (c : ascii) : bool :=
  let n := nat_of_ascii c in
  ((65 <=? n)%nat && (n <=? 90)%nat) || ((97 <=? n)%nat && (n <=? 122)%nat).

Fixpoint map_str (f : ascii -> ascii) (s : string) : string :=
  match s with
  | EmptyString => EmptyString
  | String c r => String (f c) (map_str f r)
  end.

Definition lower (s : string) : string := map_str lower_char s.

(** [str.title()]: a letter following a letter is lowered, any other
    letter is raised. *)
Fixpoint title_aux (prev_alpha : bool) (s : string) : string :=
  match s with
  | EmptyString => EmptyString
  | String c r =>
      let c' := if is_alpha c
                then (if prev_alpha then lower_char c else upper_char c)
                else c in
      String c' (title_aux (is_alpha c) r)
  end.

Definition title (s : string) : string := title_aux false s.

(** [str(n)] for an integer. *)
Fixpoint digits_rev (fuel : nat) (n : Z) : string :=
  match fuel with
  | O => EmptyString
  | S f =>
      let d := ascii_of_nat (48 + Z.to_nat (n mod 10)) in
      if n <? 10 then String d EmptyString
      else digits_rev f (n / 10) ++ String d EmptyString
  end.

Definition show_Z (n : Z) : string :=
  if n <? 0 then "-" ++ digits_rev 64 (- n) else digits_rev 64 n.

End Str.

(** ** [_is_quota_error] *)

Definition quota_indicators : list string :=
  ["429"; "quota"; "rate limit"; "exceeded"; "ResourceExhausted";
   "billing"; "plan"; "free tier"; "requests per day"].

Definition _is_quota_error (error_message : string) : bool :=
  existsb (fun indicator =>
             Str.contains (Str.lower indicator) (Str.lower error_message))
          quota_indicators.

(** ** [_is_phone_number] and the normalisation of [_handle_phone_collection] *)

Definition _is_phone_number (message : string) : bool :=
  let clean_message := Str.filter_str Str.is_digit message in
  (10 <=? Str.len clean_message)%nat
  && (Str.len clean_message <=? 13)%nat.

Definition invalid_phone_msg : string :=
  "N√∫mero inv√°lido. Por favor, digite no formato com DDD (exemplo: 11999999999):".

(** Lines 505-519: [inl] is the re-prompt; [inr] is the pair
    [(phone_clean, phone_formatted)]. *)
Definition normalize_phone (phone_message : string) : string + (string * string) :=
  let phone_clean := Str.filter_str Str.is_digit phone_message in
  let n := Str.len phone_clean in
  if (n <? 10)%nat || (13 <? n)%nat then inl invalid_phone_msg
  else
    let phone_formatted :=
      if (n =? 10)%nat then
        "55" ++ Str.slice_to 2 phone_clean ++ "9" ++ Str.slice_from 2 phone_clean
      else if (n =? 11)%nat then "55" ++ phone_clean
      else if String.prefix "55" phone_clean then phone_clean
      else "55" ++ phone_clean in
    inr (phone_clean, phone_formatted).

Example normalize_phone_11 :
  normalize_phone "(11) 98765-4321" = inr ("11987654321", "5511987654321").
Proof. reflexivity. Qed.

Example normalize_phone_10 :
  normalize_phone "1187654321" = inr ("1187654321", "5511987654321").
Proof. reflexivity. Qed.

Example quota_resource :
  _is_quota_error "google.api_core: ResourceExhausted" = true.
Proof. reflexivity. Qed.

(** ** Data model *)

(** A flow step [{"id": int, "question": str}] and the flow document
    [{"steps": [...], "completion_message": str}]. *)
Record Step := mkStep { step_id : Z; question : string }.

Record Flow := mkFlow {
  steps : list Step;
  completion_message : option string
}.

(** A Python dict with string keys and string values, in insertion
    order: lookup returns the first binding, assignment overwrites in
    place or appends. *)
Definition dict := list (string * string).

Fixpoint dict_get (k : string) (d : dict) : option string :=
  match d with
  | [] => None
  | (k', v) :: r => if String.eqb k k' then Some v else dict_get k r
  end.

Definition dict_mem (k : string) (d : dict) : bool :=
  match dict_get k d with Some _ => true | None => false end.

Fixpoint dict_set (k v : string) (d : dict) : dict :=
  match d with
  | [] => [(k, v)]
  | (k', v') :: r =>
      if String.eqb k k' then (k', v) :: r else (k', v') :: dict_set k v r
  end.

(** The session document stored per [session_id]. Timestamps
    ([created_at], [last_updated], [last_gemini_check]) carry no
    decision of the code and are left out. *)
Record Session := mkSession {
  session_id : string;
  platform : string;
  lead_data : dict;
  message_count : Z;
  fallback_step : option Z;
  phone_submitted : bool;
  gemini_available : bool;
  fallback_completed : bool;
  phone_number : option string;
  phone_formatted : option string;
  last_message : option string;
  last_response : option string
}.

Definition set_lead_data (d : dict) (s : Session) : Session :=
  {| session_id := session_id s; platform := platform s; lead_data := d;
     message_count := message_count s; fallback_step := fallback_step s;
     phone_submitted := phone_submitted s; gemini_available := gemini_available s;
     fallback_completed := fallback_completed s; phone_number := phone_number s;
     phone_formatted := phone_formatted s; last_message := last_message s;
     last_response := last_response s |}.

Definition set_fallback_step (v : option Z) (s : Session) : Session :=
  {| session_id := session_id s; platform := platform s; lead_data := lead_data s;
     message_count := message_count s; fallback_step := v;
     phone_submitted := phone_submitted s; gemini_available := gemini_available s;
     fallback_completed := fallback_completed s; phone_number := phone_number s;
     phone_formatted := phone_formatted s; last_message := last_message s;
     last_response := last_response s |}.

Definition set_fallback_completed (b : bool) (s : Session) : Session :=
  {| session_id := session_id s; platform := platform s; lead_data := lead_data s;
     message_count := message_count s; fallback_step := fallback_step s;
     phone_submitted := phone_submitted s; gemini_available := gemini_available s;
     fallback_completed := b; phone_number := phone_number s;
     phone_formatted := phone_formatted s; last_message := last_message s;
     last_response := last_response s |}.

Definition set_gemini_available (b : bool) (s : Session) : Session :=
  {| session_id := session_id s; platform := platform s; lead_data := lead_data s;
     message_count := message_count s; fallback_step := fallback_step s;
     phone_submitted := phone_submitted s; gemini_available := b;
     fallback_completed := fallback_completed s; phone_number := phone_number s;
     phone_formatted := phone_formatted s; last_message := last_message s;
     last_response := last_response s |}.

Definition set_phone_number (p : string) (s : Session) : Session :=
  {| session_id := session_id s; platform := platform s; lead_data := lead_data s;
     message_count := message_count s; fallback_step := fallback_step s;
     phone_submitted := phone_submitted s; gemini_available := gemini_available s;
     fallback_completed := fallback_completed s; phone_number := Some p;
     phone_formatted := phone_formatted s; last_message := last_message s;
     last_response := last_response s |}.

(** [session_data.update({"phone_number": ..., "phone_formatted": ...,
    "phone_submitted": True, ...})]. *)
Definition set_phone_collected (clean formatted : string) (s : Session) : Session :=
  {| session_id := session_id s; platform := platform s; lead_data := lead_data s;
     message_count := message_count s; fallback_step := fallback_step s;
     phone_submitted := true; gemini_available := gemini_available s;
     fallback_completed := fallback_completed s; phone_number := Some clean;
     phone_formatted := Some formatted; last_message := last_message s;
     last_response := last_response s |}.

(** The end-of-turn update: [last_message], [last_response] and
    [message_count = session_data.get("message_count", 0) + 1]. *)
Definition set_turn (msg resp : string) (s : Session) : Session :=
  {| session_id := session_id s; platform := platform s; lead_data := lead_data s;
     message_count := message_count s + 1; fallback_step := fallback_step s;
     phone_submitted := phone_submitted s; gemini_available := gemini_available s;
     fallback_completed := fallback_completed s; phone_number := phone_number s;
     phone_formatted := phone_formatted s; last_message := Some msg;
     last_response := Some resp |}.

(** ** A state and exception monad for the turn

    [working] is the mutable [session_data] dict shared by every method
    of a turn (mutations survive exceptions, as in Python); [store] is
    the persisted copy of the session in the session store;
    [save_oracle] says, call by call, whether [save_user_session]
    succeeds ([false] = it raises); an exhausted oracle means success. *)
Inductive exn := TimeoutError | Exception (msg : string).

Definition str_of_exn (e : exn) : string :=
  match e with TimeoutError => "" | Exception m => m end.

Record World := mkWorld {
  working : Session;
  store : option Session;
  save_oracle : list bool
}.

Definition M (A : Type) := World -> (A + exn) * World.

Definition ret {A} (x : A) : M A := fun w => (inl x, w).

Definition bind {A B} (m : M A) (k : A -> M B) : M B :=
  fun w => match m w with
           | (inl x, w') => k x w'
           | (inr e, w') => (inr e, w')
           end.

Definition raise {A} (e : exn) : M A := fun w => (inr e, w).

(** [try: m except e: h e]. *)
Definition try_except {A} (m : M A) (h : exn -> M A) : M A :=
  fun w => match m w with
           | (inl x, w') => (inl x, w')
           | (inr e, w') => h e w'
           end.

Notation "x <- m ;; k" := (bind m (fun x => k))
  (at level 61, m at next level, right associativity).
Notation "m ;; k" := (bind m (fun _ => k))
  (at level 61, right associativity).

Definition get_session : M Session := fun w => (inl (working w), w).

Definition put_session (s : Session) : M unit :=
  fun w => (inl tt, mkWorld s (store w) (save_oracle w)).

Definition modify (f : Session -> Session) : M unit :=
  fun w => (inl tt, mkWorld (f (working w)) (store w) (save_oracle w)).

(** [await save_user_session(session_id, session_data)]. *)
Definition save_user_session : M unit :=
  fun w =>
    match save_oracle w with
    | false :: rest => (inr (Exception "store unavailable"),
                        mkWorld (working w) (store w) rest)
    | true :: rest => (inl tt, mkWorld (working w) (Some (working w)) rest)
    | [] => (inl tt, mkWorld (working w) (Some (working w)) [])
    end.

(** [await get_user_session(session_id)]. *)
Definition get_user_session : M (option Session) := fun w => (inl (store w), w).

(** The AI backend's behaviour on this turn's call: the value returned
    ([None] for [None] or a non-string), a timeout, or an exception
    with its text. *)
Inductive ai_outcome :=
| AIReturn (r : option string)
| AITimeout
| AIRaise (msg : string).

(** A value of the returned result dict. *)
Inductive pyval := PStr (s : string) | PInt (z : Z) | PBool (b : bool) | PNone.

Definition result := list (string * pyval).

Definition result_get (k : string) (r : result) : option pyval :=
  option_map snd (find (fun kv => String.eqb (fst kv) k) r).

(** ** Flow loading and step lookup *)

(** The hard-coded flow [_get_firebase_flow] returns when loading fails. *)
Definition default_flow : Flow :=
  mkFlow [mkStep 1 "Qual √© o seu nome completo?";
          mkStep 2 "Em qual √°rea do direito voc√™ precisa de ajuda?";
          mkStep 3 "Descreva brevemente sua situa√ß√£o.";
          mkStep 4 "Gostaria de agendar uma consulta?"]
         (Some "Obrigado! Suas informa√ß√µes foram registradas.").

(** [_get_firebase_flow]: the cached flow document, or [default_flow]
    when [get_conversation_flow] raised ([None]). Within one turn every
    call sees the same cached value. *)
Definition _get_firebase_flow (loaded : option Flow) : Flow :=
  match loaded with Some f => f | None => default_flow end.

(** [sorted(steps, key=lambda x: x.get("id", 0))]: a stable sort. *)
Fixpoint insert_step (x : Step) (l : list Step) : list Step :=
  match l with
  | [] => [x]
  | y :: r => if step_id x <=? step_id y then x :: y :: r else y :: insert_step x r
  end.

Fixpoint sort_steps (l : list Step) : list Step :=
  match l with
  | [] => []
  | x :: r => insert_step x (sort_steps r)
  end.

(** [next((s for s in steps if s["id"] == k), None)]. *)
Definition find_step (l : list Step) (k : Z) : option Step :=
  find (fun s => step_id s =? k) l.

Definition nl2 : string := String (ascii_of_nat 10) (String (ascii_of_nat 10) EmptyString).

Definition name_question : string := "Qual √© o seu nome completo?".

Definition phone_request_prompt : string :=
  "Obrigado pelas informa√ß√µes! Para finalizar, preciso do seu n√∫mero de WhatsApp com DDD (exemplo: 11999999999):".

(** ** AnswerValidator: [_get_validation_message],
    [_validate_and_normalize_answer], [_should_advance_step] *)

Definition _get_validation_message (step_id : Z) : string :=
  if step_id =? 1 then "Por favor, informe seu nome completo (nome e sobrenome)."
  else if step_id =? 2 then "Por favor, escolha uma das √°reas: Penal, Civil, Trabalhista, Fam√≠lia ou Empresarial."
  else if step_id =? 3 then "Por favor, descreva sua situa√ß√£o com mais detalhes (m√≠nimo 3 caracteres)."
  else if step_id =? 4 then "Por favor, responda com 'Sim' ou 'N√£o'."
  else "Por favor, forne√ßa uma resposta v√°lida.".

Definition area_map : list (string * string) :=
  [("penal", "Penal"); ("criminal", "Penal"); ("crime", "Penal");
   ("civil", "Civil"); ("civel", "Civil");
   ("trabalhista", "Trabalhista"); ("trabalho", "Trabalhista");
   ("trabalhador", "Trabalhista");
   ("fam√≠lia", "Fam√≠lia"); ("familia", "Fam√≠lia");
   ("div√≥rcio", "Fam√≠lia"); ("divorcio", "Fam√≠lia");
   ("casamento", "Fam√≠lia");
   ("empresarial", "Empresarial"); ("empresa", "Empresarial");
   ("comercial", "Empresarial"); ("neg√≥cio", "Empresarial");
   ("negocio", "Empresarial")].

Definition yes_words : list string :=
  ["sim"; "yes"; "quero"; "gostaria"; "aceito"; "ok"; "pode"; "claro"].

Definition no_words : list string :=
  ["n√£o"; "nao"; "no"; "nope"; "n√£o quero"; "nao quero"].

Definition _validate_and_normalize_answer (answer0 : string) (step_id : Z) : string :=
  let answer := Str.strip answer0 in
  if step_id =? 1 then answer
  else if step_id =? 2 then
    let answer_lower := Str.lower answer in
    match find (fun kv => Str.contains (fst kv) answer_lower) area_map with
    | Some (_, normalized) => normalized
    | None => Str.title answer
    end
  else if step_id =? 3 then answer
  else if step_id =? 4 then
    let answer_lower := Str.lower answer in
    if existsb (fun w => Str.contains w answer_lower) yes_words then "Sim"
    else if existsb (fun w => Str.contains w answer_lower) no_words then "N√£o"
    else answer
  else answer.

Definition _should_advance_step (answer0 : string) (step_id : Z) : bool :=
  let answer := Str.strip answer0 in
  let n := Str.len answer in
  if (n <? 1)%nat then false
  else if step_id =? 1 then
    let words := Str.split answer in
    (2 <=? List.length words)%nat
    && forallb (fun w => (2 <=? Str.len w)%nat) words
  else if step_id =? 2 then (3 <=? n)%nat
  else if step_id =? 3 then (5 <=? n)%nat
  else if step_id =? 4 then (1 <=? n)%nat
  else (2 <=? n)%nat.

Example normalize_area : _validate_and_normalize_answer " Divorcio litigioso" 2 = "Fam√≠lia".
Proof. reflexivity. Qed.

Example advance_name : _should_advance_step "Ana Souza" 1 = true /\
                       _should_advance_step "Ana" 1 = false.
Proof. split; reflexivity. Qed.

(** ** The turn, under this turn's external behaviour *)

Section Turn.

(** What [get_conversation_flow] yields this turn ([None]: it raised),
    what the AI backend does on its call, and whether the two WhatsApp
    dispatches succeed. *)
Variable flow_loaded : option Flow.
Variable ai : ai_outcome.
Variable whatsapp_ok : bool.

Definition the_flow : Flow := _get_firebase_flow flow_loaded.

(** Lines 376-391: advance from step [current_step_id]. *)
Definition fallback_advance (sorted : list Step) (current_step_id : Z) : M string :=
  let next_step_id := current_step_id + 1 in
  match find_step sorted next_step_id with
  | Some next_step =>
      modify (set_fallback_step (Some next_step_id)) ;;
      save_user_session ;;
      ret (question next_step)
  | None =>
      modify (set_fallback_completed true) ;;
      save_user_session ;;
      ret phone_request_prompt
  end.

Definition first_question (sorted : list Step) : string :=
  match find_step sorted 1 with
  | Some first_step => question first_step
  | None => name_question
  end.

(** The body of the [try] of [_get_fallback_response] (lines 310-394). *)
Definition fallback_body (message : string) : M string :=
  let flow := the_flow in
  match steps flow with
  | [] => ret name_question
  | _ :: _ =>
    let sorted := sort_steps (steps flow) in
    session_data <- get_session ;;
    match fallback_step session_data with
    | None =>
        modify (set_fallback_step (Some 1)) ;;
        modify (set_lead_data []) ;;
        save_user_session ;;
        ret (first_question sorted)
    | Some current_step_id =>
        let lead := lead_data session_data in
        match find_step sorted current_step_id with
        | None =>
            modify (set_fallback_step (Some 1)) ;;
            save_user_session ;;
            ret (first_question sorted)
        | Some current_step =>
            let step_key := "step_" ++ Str.show_Z current_step_id in
            if Str.truthy message && Str.truthy (Str.strip message) then
              if dict_mem step_key lead then
                fallback_advance sorted current_step_id
              else
                let normalized_answer :=
                  _validate_and_normalize_answer message current_step_id in
                if negb (_should_advance_step normalized_answer current_step_id) then
                  ret (_get_validation_message current_step_id ++ nl2
                       ++ question current_step)
                else
                  modify (set_lead_data (dict_set step_key normalized_answer lead)) ;;
                  save_user_session ;;
                  fallback_advance sorted current_step_id
            else ret (question current_step)
        end
    end
  end.

(** [_get_fallback_response]: any exception yields the name question. *)
Definition _get_fallback_response (message : string) : M string :=
  try_except (fallback_body message) (fun _ => ret name_question).

(** ** [_attempt_gemini_response] and [_mark_gemini_unavailable] *)

Definition _mark_gemini_unavailable : M unit :=
  modify (set_gemini_available false) ;;
  save_user_session.

(** The awaited [asyncio.wait_for(ai_orchestrator.generate_response(...))]. *)
Definition call_ai : M (option string) :=
  match ai with
  | AIReturn r => ret r
  | AITimeout => raise TimeoutError
  | AIRaise msg => raise (Exception msg)
  end.

Definition valid_ai_response (r : string) : bool :=
  Str.truthy r && Str.truthy (Str.strip r) && negb (_is_quota_error r).

Definition _attempt_gemini_response : M (option string) :=
  session_data <- get_session ;;
  if negb (gemini_available session_data) then ret None
  else
    try_except
      (gemini_response <- call_ai ;;
       match gemini_response with
       | Some r =>
           if valid_ai_response r then
             session_data' <- get_session ;;
             (if negb (gemini_available session_data') then
                modify (set_gemini_available true) ;;
                save_user_session
              else ret tt) ;;
             ret (Some r)
           else ret None
       | None => ret None
       end)
      (fun e =>
         match e with
         | TimeoutError => _mark_gemini_unavailable ;; ret None
         | Exception error_str =>
             if _is_quota_error error_str
             then _mark_gemini_unavailable ;; ret None
             else _mark_gemini_unavailable ;; ret None
         end).

(** ** [_handle_phone_collection] *)

Definition phone_error_msg : string :=
  "Ocorreu um erro ao processar seu n√∫mero. Por favor, tente novamente ou entre em contato conosco diretamente.".

Definition default_completion : string :=
  "Perfeito! Suas informa√ß√µes foram registradas com sucesso. Nossa equipe entrar√° em contato em breve.".

Definition final_phone_message (phone_clean completion : string) : string :=
  "N√∫mero confirmado: " ++ phone_clean ++ " üì±" ++ nl2 ++ completion ++ nl2
  ++ (if whatsapp_ok then "‚úÖ Mensagem enviada para seu WhatsApp!"
      else "‚ö†Ô∏è Houve um problema ao enviar a mensagem do WhatsApp, mas suas informa√ß√µes foram salvas.").

(** The lead record ([save_lead_data]) and the two WhatsApp messages are
    sent to collaborators outside the session store; their failures are
    caught and only change the final notice ([whatsapp_ok]). *)
Definition _handle_phone_collection (phone_message : string) : M string :=
  try_except
    (match normalize_phone phone_message with
     | inl reprompt => ret reprompt
     | inr (phone_clean, phone_formatted) =>
         modify (set_phone_collected phone_clean phone_formatted) ;;
         session_data <- get_session ;;
         modify (set_lead_data (dict_set "phone" phone_clean (lead_data session_data))) ;;
         save_user_session ;;
         let completion :=
           match completion_message the_flow with
           | Some c => c
           | None => default_completion
           end in
         ret (final_phone_message phone_clean completion)
     end)
    (fun _ => ret phone_error_msg).

(** ** [_get_or_create_session] and [process_message] *)

Definition new_session (sid plat : string) : Session :=
  mkSession sid plat [] 0 None false true false None None None None.

Definition _get_or_create_session (sid plat : string) (phone : option string) : M Session :=
  stored <- get_user_session ;;
  let session_data := match stored with Some s => s | None => new_session sid plat end in
  let session_data :=
    match phone with
    | Some p => if Str.truthy p then set_phone_number p session_data else session_data
    | None => session_data
    end in
  put_session session_data ;;
  ret session_data.

Definition error_apology : string :=
  "Desculpe, ocorreu um erro interno. Nossa equipe foi notificada.".

Definition opt_Z_val (o : option Z) : pyval :=
  match o with Some z => PInt z | None => PNone end.

Definition process_message (message sid : string) (phone : option string)
    (plat : string) : M result :=
  try_except
    (session_data <- _get_or_create_session sid plat phone ;;
     if fallback_completed session_data && negb (phone_submitted session_data)
        && _is_phone_number message then
       phone_response <- _handle_phone_collection message ;;
       s <- get_session ;;
       ret [("response_type", PStr "phone_collected_fallback");
            ("platform", PStr plat);
            ("session_id", PStr sid);
            ("response", PStr phone_response);
            ("phone_submitted", PBool true);
            ("message_count", PInt (message_count s + 1))]
     else
       ai_response <- _attempt_gemini_response ;;
       let fallback_path :=
           fallback_response <- _get_fallback_response message ;;
           modify (set_turn message fallback_response) ;;
           save_user_session ;;
           s <- get_session ;;
           ret [("response_type", PStr "fallback_firebase");
                ("platform", PStr plat);
                ("session_id", PStr sid);
                ("response", PStr fallback_response);
                ("ai_mode", PBool false);
                ("gemini_available", PBool false);
                ("fallback_step", opt_Z_val (fallback_step s));
                ("fallback_completed", PBool (fallback_completed s));
                ("message_count", PInt (message_count s))] in
       match ai_response with
       | Some r =>
           if Str.truthy r then
             modify (set_turn message r) ;;
             save_user_session ;;
             s <- get_session ;;
             ret [("response_type", PStr "ai_intelligent");
                  ("platform", PStr plat);
                  ("session_id", PStr sid);
                  ("response", PStr r);
                  ("ai_mode", PBool true);
                  ("gemini_available", PBool true);
                  ("message_count", PInt (message_count s))]
           else fallback_path
       | None => fallback_path
       end)
    (fun e =>
       ret [("response_type", PStr "error");
            ("platform", PStr plat);
            ("session_id", PStr sid);
            ("response", PStr error_apology);
            ("error", PStr (str_of_exn e))]).

End Turn.

(** ** [handle_phone_number_submission] (lines 712-734) *)

(** [_handle_phone_collection] on the [{}] that
    [get_user_session(session_id) or {}] gives for an unknown session:
    the re-prompt of an invalid number is returned as usual; for a valid
    one, [session_data.update(...)] succeeds on the fresh dict and
    [session_data["lead_data"]] then raises [KeyError('lead_data')],
    which the handler's [try] turns into its error message. The fresh
    dict is never saved. *)
Definition phone_collection_on_empty (phone_message : string) : M string :=
  try_except
    (match normalize_phone phone_message with
     | inl reprompt => ret reprompt
     | inr _ => raise (Exception "'lead_data'")
     end)
    (fun _ => ret phone_error_msg).

Definition submission_error_msg : string := "Erro ao processar n√∫mero de WhatsApp".

Definition handle_phone_number_submission (flow_loaded : option Flow) (whatsapp_ok : bool)
    (phone_number sid : string) : M result :=
  try_except
    (stored <- get_user_session ;;
     response <- match stored with
                 | Some session_data =>
                     put_session session_data ;;
                     _handle_phone_collection flow_loaded whatsapp_ok phone_number
                 | None => phone_collection_on_empty phone_number
                 end ;;
     ret [("status", PStr "success");
          ("message", PStr response);
          ("phone_submitted", PBool true)])
    (fun e =>
       ret [("status", PStr "error");
            ("message", PStr submission_error_msg);
            ("error", PStr (str_of_exn e))]).

(** ** The lead record of [_handle_phone_collection] (lines 538-552) *)

(** The [answers] list passed to [save_lead_data]: [(id, answer)] for
    each step in id order whose [lead_data["step_<id>"]] is a non-empty
    string, then the phone with id [len(steps) + 1]. *)
Definition lead_answer_of (lead : dict) (st : Step) : list (Z * string) :=
  match dict_get ("step_" ++ Str.show_Z (step_id st)) lead with
  | Some answer => if Str.truthy answer then [(step_id st, answer)] else []
  | None => []
  end.

Definition _lead_answers (flow_steps : list Step) (lead : dict) (phone_clean : string)
    : list (Z * string) :=
  (flat_map (lead_answer_of lead) (sort_steps flow_steps)
   ++ (if Str.truthy phone_clean
       then [(Z.of_nat (List.length flow_steps) + 1, phone_clean)] else []))%list.

(** ** [get_gemini_health_status] (lines 33-94) *)

(** What the health probe meets: [generate_response] returns
    ([test_response], [None] when it is not a string) and
    [clear_session_memory] then raises ([Some msg]) or not; or
    [asyncio.wait_for] times out; or the call raises another
    exception. *)
Inductive health_outcome :=
  | HReply (test_response : option string) (clear_error : option string)
  | HTimeout
  | HRaise (msg : string).

Definition health_dict (status : string) (available : bool) (message : string) : result :=
  [("service", PStr "gemini_ai"); ("status", PStr status);
   ("available", PBool available); ("message", PStr message)].

(** The returned dict and the new value of [self.gemini_available]
    (every branch assigns it). *)
Definition get_gemini_health_status (o : health_outcome) : result * bool :=
  let on_exception (msg : string) :=
    let error_str := Str.lower msg in
    if _is_quota_error error_str
    then (health_dict "quota_exceeded" false ("Gemini API quota exceeded: " ++ msg), false)
    else (health_dict "error" false ("Gemini AI error: " ++ msg), false) in
  let inactive := (health_dict "inactive" false "Gemini AI returned invalid response", false) in
  match o with
  | HReply test_response clear_error =>
      match clear_error with
      | Some msg => on_exception msg
      | None =>
          match test_response with
          | Some r =>
              if Str.truthy r && Str.truthy (Str.strip r)
              then (health_dict "active" true "Gemini AI is operational", true)
              else inactive
          | None => inactive
          end
      end
  | HTimeout =>
      (health_dict "inactive" false "Gemini AI timeout - likely quota exceeded", false)
  | HRaise msg => on_exception msg
  end.

(** ** [get_overall_service_status] (lines 96-149) *)

(** [get_firebase_service_status()] returns a dict or raises. *)
Inductive firebase_outcome := FBStatus (status : result) | FBRaise (msg : string).

Record Features := mkFeatures {
  conversation_flow : bool;
  ai_responses : bool;
  fallback_mode_feature : bool;
  whatsapp_integration : bool;
  lead_collection : bool
}.

Record ServiceStatus := mkServiceStatus {
  overall_status : string;
  firebase_status : result;
  ai_status : result;
  features : Features;
  status_gemini_available : bool;
  status_fallback_mode : bool;
  status_error : option string
}.

(** [d.get("status") == "active"]. *)
Definition status_is_active (d : result) : bool :=
  match result_get "status" d with Some (PStr s) => String.eqb s "active" | _ => false end.

(** The report and the new value of [self.gemini_available]. *)
Definition get_overall_service_status (fb : firebase_outcome) (h : health_outcome)
    (gemini_flag : bool) : ServiceStatus * bool :=
  match fb with
  | FBStatus firebase_st =>
      let (ai_st, gemini_flag') := get_gemini_health_status h in
      let firebase_healthy := status_is_active firebase_st in
      let ai_healthy := status_is_active ai_st in
      let overall :=
        if firebase_healthy && ai_healthy then "active"
        else if firebase_healthy then "degraded"
        else "error" in
      (mkServiceStatus overall firebase_st ai_st
         (mkFeatures firebase_healthy ai_healthy (firebase_healthy && negb ai_healthy)
                     true firebase_healthy)
         gemini_flag' (negb gemini_flag') None,
       gemini_flag')
  | FBRaise msg =>
      (mkServiceStatus "error"
         [("status", PStr "error"); ("error", PStr msg)]
         [("status", PStr "error"); ("error", PStr msg)]
         (mkFeatures false false false false false)
         false true (Some msg),
       gemini_flag)
  end.

(** ** The flow cache of [_get_firebase_flow] (lines 274-298) *)

Record FlowCache := mkFlowCache {
  firebase_flow_cache : option Flow;
  cache_timestamp : option Z
}.

(** Times are microseconds since the epoch. [timedelta.seconds] is the
    seconds field of the normalised delta, in [0, 86399]: whole days
    are dropped. *)
Definition timedelta_seconds (delta : Z) : Z := (delta mod 86400000000) / 1000000.

(** One call: [loaded] is what [get_conversation_flow()] gives ([None]:
    it raised); [now_check] and [now_loaded] are the two
    [datetime.now] readings. Returns the flow and the new cache. *)
Definition get_firebase_flow_cached (loaded : option Flow) (now_check now_loaded : Z)
    (c : FlowCache) : Flow * FlowCache :=
  let load :=
    match loaded with
    | Some f => (f, mkFlowCache (Some f) (Some now_loaded))
    | None => (default_flow, c)
    end in
  match firebase_flow_cache c, cache_timestamp c with
  | Some f, Some ts => if 300 <? timedelta_seconds (now_check - ts) then load else (f, c)
  | _, _ => load
  end.

(** * Properties *)

(** ** String lemmas *)

Lemma str_app_assoc (a b c : string) : (a ++ b) ++ c = a ++ (b ++ c).
Proof. induction a as [|x a IH]; simpl; [reflexivity | now rewrite IH]. Qed.

Lemma str_app_nil (a : string) : a ++ "" = a.
Proof. induction a as [|x a IH]; simpl; [reflexivity | now rewrite IH]. Qed.

Lemma join_nil : Str.join [] = "".
Proof. reflexivity. Qed.

Lemma join_cons (x : string) (l : list string) : Str.join (x :: l) = x ++ Str.join l.
Proof. reflexivity. Qed.

Lemma join_app (l1 l2 : list string) :
  Str.join (l1 ++ l2) = Str.join l1 ++ Str.join l2.
Proof.
  induction l1 as [|x l1 IH]; [reflexivity |].
  rewrite <- app_comm_cons, !join_cons, IH, str_app_assoc; reflexivity.
Qed.

(** The characters of a string, joined, give the string back. *)
Lemma join_chars (s : string) : Str.join (Str.chars s) = s.
Proof.
  induction s as [|c r IH]; [reflexivity |].
  cbn [Str.chars]; destruct (Str.chars r) as [|ch rest] eqn:E.
  - cbn in IH; subst r; reflexivity.
  - destruct (Str.starts_cont ch); rewrite join_cons; cbn; rewrite <- IH; reflexivity.
Qed.

Lemma chars_nil (s : string) : Str.chars s = [] -> s = "".
Proof. intros H; rewrite <- (join_chars s), H; reflexivity. Qed.

Fixpoint all_cont (s : string) : bool :=
  match s with
  | EmptyString => true
  | String c r => Str.is_cont c && all_cont r
  end.

(** One character as [chars] cuts it: a byte and the continuation
    bytes after it. *)
Definition char_ok (ch : string) : bool :=
  match ch with EmptyString => false | String _ t => all_cont t end.

(** The lists [chars] gives: characters, each one after the first
    starting with a byte that starts a character. *)
Definition chars_ok (l : list string) : Prop :=
  forallb char_ok l = true /\ forallb (fun ch => negb (Str.starts_cont ch)) (tl l) = true.

Lemma chars_ok_chars (s : string) : chars_ok (Str.chars s).
Proof.
  induction s as [|c r IH]; [split; reflexivity |].
  cbn [Str.chars]; destruct (Str.chars r) as [|ch rest] eqn:E; [split; reflexivity |].
  destruct IH as [H1 H2]; cbn in H1, H2; apply andb_true_iff in H1 as [Hch Hrest].
  destruct (Str.starts_cont ch) eqn:Hs.
  - split; cbn; [| exact H2].
    rewrite Hrest, andb_true_r.
    destruct ch as [|d t]; [discriminate |]; cbn in Hs, Hch |- *; rewrite Hs; exact Hch.
  - split; cbn; [rewrite Hch, Hrest; reflexivity | rewrite Hs; exact H2].
Qed.

Lemma chars_cont_app (t : string) (l : list string) :
  all_cont t = true -> forallb (fun ch => negb (Str.starts_cont ch)) l = true ->
  Str.chars (Str.join l) = l ->
  Str.chars (t ++ Str.join l) = match t with EmptyString => l | _ => t :: l end.
Proof.
  intros Ht Hl Hj; induction t as [|d t IH]; [exact Hj |].
  cbn in Ht; apply andb_true_iff in Ht as [Hd Ht].
  cbn [append Str.chars]; rewrite (IH Ht).
  destruct t as [|e t'].
  - destruct l as [|ch rest]; [reflexivity |].
    cbn in Hl; apply andb_true_iff in Hl as [Hch _].
    apply negb_true_iff in Hch; rewrite Hch; reflexivity.
  - cbn in Ht; apply andb_true_iff in Ht as [He _].
    cbn [Str.starts_cont]; rewrite He; reflexivity.
Qed.

(** Joining a list of the shape [chars] gives and cutting it again
    gives the list back. *)
Lemma chars_join (l : list string) : chars_ok l -> Str.chars (Str.join l) = l.
Proof.
  assert (Hclean : forall m, forallb char_ok m = true ->
                   forallb (fun ch => negb (Str.starts_cont ch)) m = true ->
                   Str.chars (Str.join m) = m).
  { clear l; intros m; induction m as [|ch l IH]; intros H1 H2; [reflexivity |].
    cbn in H1, H2; apply andb_true_iff in H1 as [Hch H1];
      apply andb_true_iff in H2 as [_ H2].
    destruct ch as [|c t]; [discriminate |]; cbn in Hch.
    rewrite join_cons; cbn [append Str.chars].
    rewrite (chars_cont_app t l Hch H2 (IH H1 H2)).
    destruct t as [|e t'].
    - destruct l as [|ch' rest]; [reflexivity |].
      cbn in H2; apply andb_true_iff in H2 as [Hc' _].
      apply negb_true_iff in Hc'; rewrite Hc'; reflexivity.
    - cbn in Hch; apply andb_true_iff in Hch as [He _].
      cbn [Str.starts_cont]; rewrite He; reflexivity. }
  destruct l as [|ch l]; [reflexivity |].
  intros [H1 H2]; cbn in H1, H2; apply andb_true_iff in H1 as [Hch H1].
  destruct ch as [|c t]; [discriminate |]; cbn in Hch.
  rewrite join_cons; cbn [append Str.chars].
  rewrite (chars_cont_app t l Hch H2 (Hclean l H1 H2)).
  destruct t as [|e t'].
  - destruct l as [|ch' rest]; [reflexivity |].
    cbn in H2; apply andb_true_iff in H2 as [Hc' _].
    apply negb_true_iff in Hc'; rewrite Hc'; reflexivity.
  - cbn in Hch; apply andb_true_iff in Hch as [He _].
    cbn [Str.starts_cont]; rewrite He; reflexivity.
Qed.

Lemma chars_ok_incl (l l' : list string) :
  chars_ok l -> incl l' l -> incl (tl l') (tl l) -> chars_ok l'.
Proof.
  intros [H1 H2] Hi Ht; split; apply forallb_forall; intros x Hx.
  - exact (proj1 (forallb_forall _ _) H1 x (Hi x Hx)).
  - exact (proj1 (forallb_forall _ _) H2 x (Ht x Hx)).
Qed.

Lemma incl_tl_self {A} (l : list A) : incl (tl l) l.
Proof. destruct l; cbn; [apply incl_refl | apply incl_tl, incl_refl]. Qed.

Lemma incl_tl_filter {A} (p : A -> bool) (l : list A) : incl (tl (filter p l)) (tl l).
Proof.
  induction l as [|x l IH]; cbn; [apply incl_refl |].
  destruct (p x); cbn.
  - intros y Hy; apply filter_In in Hy; exact (proj1 Hy).
  - intros y Hy; apply incl_tl_self, IH, Hy.
Qed.

Lemma chars_ok_filter (p : string -> bool) (l : list string) :
  chars_ok l -> chars_ok (filter p l).
Proof.
  intros H; apply (chars_ok_incl l); [exact H | | apply incl_tl_filter].
  intros y Hy; apply filter_In in Hy; exact (proj1 Hy).
Qed.

Lemma incl_skipn {A} (n : nat) (l : list A) : incl (skipn n l) l.
Proof.
  revert l; induction n as [|n IH]; intros [|x l]; cbn; try apply incl_refl.
  apply incl_tl, IH.
Qed.

Lemma incl_firstn {A} (n : nat) (l : list A) : incl (firstn n l) l.
Proof.
  revert l; induction n as [|n IH]; intros [|x l]; cbn; try (intros y []; fail).
  apply incl_cons; [left; reflexivity | apply incl_tl, IH].
Qed.

Lemma chars_ok_skipn (n : nat) (l : list string) : chars_ok l -> chars_ok (skipn n l).
Proof.
  intros H; apply (chars_ok_incl l); [exact H | apply incl_skipn |].
  destruct n as [|n]; [apply incl_refl |].
  destruct l as [|x l]; cbn; [apply incl_refl |].
  intros y Hy; apply (incl_skipn n l), incl_tl_self, Hy.
Qed.

Lemma chars_ok_firstn (n : nat) (l : list string) : chars_ok l -> chars_ok (firstn n l).
Proof.
  intros H; apply (chars_ok_incl l); [exact H | apply incl_firstn |].
  destruct n as [|n]; [intros y [] |].
  destruct l as [|x l]; cbn; [apply incl_refl | apply incl_firstn].
Qed.

Lemma lstrip_skipn (l : list string) : exists k, Str.lstrip_chars l = skipn k l.
Proof.
  induction l as [|x l [k IH]]; [exists 0%nat; reflexivity |].
  cbn [Str.lstrip_chars]; destruct (Str.is_space x); [exists (S k); exact IH | exists 0%nat; reflexivity].
Qed.

Lemma strip_firstn_skipn (l : list string) :
  exists a b, Str.strip_chars l = firstn a (skipn b l).
Proof.
  unfold Str.strip_chars; destruct (lstrip_skipn l) as [b Hb]; rewrite Hb.
  destruct (lstrip_skipn (rev (skipn b l))) as [a Ha]; rewrite Ha, skipn_rev, rev_involutive.
  exists (Datatypes.length (skipn b l) - a)%nat, b; reflexivity.
Qed.

Lemma chars_ok_strip (l : list string) : chars_ok l -> chars_ok (Str.strip_chars l).
Proof.
  intros H; destruct (strip_firstn_skipn l) as [a [b ->]].
  apply chars_ok_firstn, chars_ok_skipn, H.
Qed.


Lemma chars_strip (s : string) : Str.chars (Str.strip s) = Str.strip_chars (Str.chars s).
Proof. apply chars_join, chars_ok_strip, chars_ok_chars. Qed.

Lemma chars_filter (p : string -> bool) (s : string) :
  Str.chars (Str.filter_str p s) = filter p (Str.chars s).
Proof. apply chars_join, chars_ok_filter, chars_ok_chars. Qed.

Lemma lstrip_chars_idem (l : list string) :
  Str.lstrip_chars (Str.lstrip_chars l) = Str.lstrip_chars l.
Proof.
  induction l as [|x l IH]; [reflexivity |].
  cbn [Str.lstrip_chars]; destruct (Str.is_space x) eqn:E; [exact IH | cbn [Str.lstrip_chars firstn]; rewrite E; reflexivity].
Qed.

Lemma lstrip_chars_firstn (n : nat) (l : list string) :
  Str.lstrip_chars (firstn n (Str.lstrip_chars l)) = firstn n (Str.lstrip_chars l).
Proof.
  induction l as [|x l IH]; [destruct n; reflexivity |].
  cbn [Str.lstrip_chars]; destruct (Str.is_space x) eqn:E; [exact IH |].
  destruct n as [|n]; [reflexivity | cbn [Str.lstrip_chars firstn]; rewrite E; reflexivity].
Qed.

Lemma strip_chars_idem (l : list string) :
  Str.strip_chars (Str.strip_chars l) = Str.strip_chars l.
Proof.
  unfold Str.strip_chars at 2 3.
  set (l1 := Str.lstrip_chars l).
  destruct (lstrip_skipn (rev l1)) as [a Ha].
  assert (Hp : rev (Str.lstrip_chars (rev l1)) =
               firstn (Datatypes.length l1 - a) l1)
    by (rewrite Ha, skipn_rev, rev_involutive; reflexivity).
  unfold Str.strip_chars; rewrite Hp.
  subst l1; rewrite lstrip_chars_firstn, <- Hp, rev_involutive, lstrip_chars_idem.
  reflexivity.
Qed.

(** [strip] is idempotent. *)
Lemma strip_idem (s : string) : Str.strip (Str.strip s) = Str.strip s.
Proof. unfold Str.strip at 1; rewrite chars_strip, strip_chars_idem; reflexivity. Qed.

Lemma strip_truthy (s : string) : Str.truthy (Str.strip s) = true -> Str.truthy s = true.
Proof. destruct s; [discriminate | reflexivity]. Qed.

Lemma len_join (l : list string) : chars_ok l -> Str.len (Str.join l) = Datatypes.length l.
Proof. intros H; unfold Str.len; rewrite chars_join by exact H; reflexivity. Qed.

Lemma truthy_len (s : string) : Str.truthy s = true -> (1 <= Str.len s)%nat.
Proof.
  intros H; unfold Str.len; destruct (Str.chars s) eqn:E; cbn; [| lia].
  apply chars_nil in E; subst s; discriminate.
Qed.

(** A digit is a whole character: it starts with a byte that starts a
    character. *)
Lemma digit_not_cont (ch : string) : Str.is_digit ch = true -> Str.starts_cont ch = false.
Proof.
  destruct ch as [|c t]; [discriminate |]; cbn [Str.starts_cont].
  unfold Str.is_digit, Str.code_point; destruct (Str.is_cont c); [|reflexivity].
  vm_compute; discriminate.
Qed.

(** ** Claim C7: phone normalisation *)

(** A character that [str.isdigit] accepts. *)
Definition digit_chunk (ch : string) : bool := char_ok ch && Str.is_digit ch.

Lemma chars_ok_digits (l : list string) :
  forallb digit_chunk l = true -> chars_ok l.
Proof.
  intros H; rewrite forallb_forall in H; split; apply forallb_forall; intros x Hx.
  - destruct (proj1 (andb_true_iff _ _) (H x Hx)) as [Hc _]; exact Hc.
  - apply negb_true_iff, digit_not_cont.
    destruct (proj1 (andb_true_iff _ _) (H x (incl_tl_self l x Hx))) as [_ Hd]; exact Hd.
Qed.

Lemma digits_filter (s : string) :
  forallb digit_chunk (filter Str.is_digit (Str.chars s)) = true.
Proof.
  destruct (chars_ok_chars s) as [H1 _]; rewrite forallb_forall in H1.
  apply forallb_forall; intros x Hx; apply filter_In in Hx as [Hin Hd].
  unfold digit_chunk; rewrite (H1 x Hin), Hd; reflexivity.
Qed.

Lemma forallb_incl {A} (p : A -> bool) (l l' : list A) :
  incl l' l -> forallb p l = true -> forallb p l' = true.
Proof.
  intros Hi H; rewrite forallb_forall in H |- *; intros x Hx; exact (H x (Hi x Hx)).
Qed.

(** C7. Phone normalisation is total: it keeps the characters of the
    input that [str.isdigit] accepts, rejects exactly when there are
    fewer than 10 or more than 13 of them; with 10 digits the handle is
    "55", the first two digits, "9" and the eight remaining digits, 13
    digits in all; with 11 digits it is "55" followed by the digits;
    with 12 or 13 digits it is the digits themselves when they start
    with "55" and "55" followed by them otherwise. Lengths count
    characters, as Python's [len] does. *)
Theorem phone_normalization_spec (raw : string) :
  let d := Str.filter_str Str.is_digit raw in
  let n := Str.len d in
  forallb Str.is_digit (Str.chars d) = true /\
  (normalize_phone raw = inl invalid_phone_msg <-> (n < 10 \/ 13 < n)%nat) /\
  (n = 10%nat ->
     normalize_phone raw = inr (d, "55" ++ Str.slice_to 2 d ++ "9" ++ Str.slice_from 2 d)
     /\ Str.len (Str.slice_to 2 d) = 2%nat /\ Str.len (Str.slice_from 2 d) = 8%nat
     /\ forallb Str.is_digit (Str.chars ("55" ++ Str.slice_to 2 d ++ "9" ++ Str.slice_from 2 d))
        = true
     /\ Str.len ("55" ++ Str.slice_to 2 d ++ "9" ++ Str.slice_from 2 d) = 13%nat) /\
  (n = 11%nat -> normalize_phone raw = inr (d, "55" ++ d)) /\
  ((n = 12 \/ n = 13)%nat -> String.prefix "55" d = true ->
     normalize_phone raw = inr (d, d)) /\
  ((n = 12 \/ n = 13)%nat -> String.prefix "55" d = false ->
     normalize_phone raw = inr (d, "55" ++ d)).
Proof.
  intros d n.
  assert (HF : Str.chars d = filter Str.is_digit (Str.chars raw)) by apply chars_filter.
  set (F := filter Str.is_digit (Str.chars raw)) in HF.
  assert (HD : forallb digit_chunk F = true) by apply digits_filter.
  assert (Hdig : forall l, forallb digit_chunk l = true -> forallb Str.is_digit l = true).
  { intros l Hl; rewrite forallb_forall in Hl |- *; intros x Hx.
    destruct (proj1 (andb_true_iff _ _) (Hl x Hx)) as [_ H]; exact H. }
  unfold normalize_phone; fold d; fold n.
  split; [rewrite HF; apply Hdig, HD |].
  split; [|split; [|split; [|split]]].
  - destruct ((n <? 10)%nat || (13 <? n)%nat) eqn:E.
    + split; [intros _|reflexivity].
      apply Bool.orb_true_iff in E as [E|E]; apply Nat.ltb_lt in E; lia.
    + split; [discriminate|].
      apply Bool.orb_false_iff in E as [E1 E2].
      apply Nat.ltb_ge in E1, E2; lia.
  - intros Hn; rewrite Hn; cbn [Nat.ltb Nat.leb orb Nat.eqb negb].
    assert (HL : Datatypes.length F = 10%nat) by (rewrite <- HF; exact Hn).
    set (L := (["5"; "5"] ++ firstn 2 F ++ ["9"] ++ skipn 2 F)%list).
    assert (HJ : "55" ++ Str.slice_to 2 d ++ "9" ++ Str.slice_from 2 d = Str.join L).
    { unfold L, Str.slice_to, Str.slice_from; rewrite HF, !join_app; reflexivity. }
    assert (HLd : forallb digit_chunk L = true).
    { unfold L; rewrite !forallb_app, (forallb_incl _ F (firstn 2 F)),
        (forallb_incl _ F (skipn 2 F)) by (exact HD || apply incl_firstn || apply incl_skipn).
      reflexivity. }
    assert (Hlen1 : Str.len (Str.slice_to 2 d) = 2%nat).
    { unfold Str.slice_to; rewrite len_join, HF, length_firstn, HL; [reflexivity |].
      rewrite HF; apply chars_ok_firstn, chars_ok_digits, HD. }
    assert (Hlen2 : Str.len (Str.slice_from 2 d) = 8%nat).
    { unfold Str.slice_from; rewrite len_join, HF, length_skipn, HL; [reflexivity |].
      rewrite HF; apply chars_ok_skipn, chars_ok_digits, HD. }
    split; [reflexivity |]; split; [exact Hlen1 |]; split; [exact Hlen2 |].
    rewrite HJ; split.
    + rewrite chars_join by (apply chars_ok_digits, HLd); apply Hdig, HLd.
    + rewrite len_join by (apply chars_ok_digits, HLd).
      unfold L; rewrite !length_app, length_firstn, length_skipn, HL; reflexivity.
  - intros Hn; rewrite Hn; reflexivity.
  - intros Hn Hp.
    replace ((n <? 10)%nat || (13 <? n)%nat) with false
      by (destruct Hn as [-> | ->]; reflexivity).
    replace (n =? 10)%nat with false by (destruct Hn as [-> | ->]; reflexivity).
    replace (n =? 11)%nat with false by (destruct Hn as [-> | ->]; reflexivity).
    now rewrite Hp.
  - intros Hn Hp.
    replace ((n <? 10)%nat || (13 <? n)%nat) with false
      by (destruct Hn as [-> | ->]; reflexivity).
    replace (n =? 10)%nat with false by (destruct Hn as [-> | ->]; reflexivity).
    replace (n =? 11)%nat with false by (destruct Hn as [-> | ->]; reflexivity).
    now rewrite Hp.
Qed.

Lemma phone_normalization_spec_witness :
  Str.len (Str.filter_str Str.is_digit "(11) 8765-4321") = 10%nat /\
  normalize_phone "(11) 8765-4321" = inr ("1187654321", "5511987654321").
Proof.
  split; [vm_compute; reflexivity|].
  destruct (phone_normalization_spec "(11) 8765-4321") as [_ [_ [H10 _]]].
  destruct H10 as [H _]; [vm_compute; reflexivity|].
  rewrite H; vm_compute; reflexivity.
Defined.

(** ** Claim C8: quota classification *)

Lemma existsb_map_lower (e : string) (l : list string) :
  existsb (fun ind => Str.contains (Str.lower ind) (Str.lower e)) l =
  existsb (fun ind => Str.contains ind (Str.lower e)) (map Str.lower l).
Proof. induction l as [|x l IH]; simpl; [reflexivity | now rewrite IH]. Qed.

Lemma quota_indicators_lower :
  map Str.lower quota_indicators =
  ["429"; "quota"; "rate limit"; "exceeded"; "resourceexhausted";
   "billing"; "plan"; "free tier"; "requests per day"].
Proof. reflexivity. Qed.

(** The indicator list as the claim gives it. *)
Definition claimed_quota_indicators : list string :=
  ["429"; "quota"; "rate limit"; "exceeded"; "billing"; "plan";
   "free tier"; "requests per day"].

(** C8 (counterexample). The claimed characterisation fails on the text
    "ResourceExhausted": the code classifies it as a quota error, yet it
    contains none of the claimed indicators. *)
Lemma quota_classification_counterexample :
  ~ (forall error_message : string,
        _is_quota_error error_message = true <->
        exists ind, In ind claimed_quota_indicators /\
                    Str.contains (Str.lower ind) (Str.lower error_message) = true).
Proof.
  intros H; destruct (H "ResourceExhausted") as [H1 _].
  destruct (H1 eq_refl) as [ind [Hin Hc]].
  simpl in Hin; repeat destruct Hin as [<- | Hin]; try discriminate; contradiction.
Qed.

(** C8 (amended). An error text is classified as a quota error exactly
    when its lowercase form contains one of the nine lowercased
    indicators "429", "quota", "rate limit", "exceeded",
    "resourceexhausted", "billing", "plan", "free tier",
    "requests per day". *)
Theorem quota_classification (error_message : string) :
  _is_quota_error error_message = true <->
  exists ind, In ind ["429"; "quota"; "rate limit"; "exceeded"; "resourceexhausted";
                      "billing"; "plan"; "free tier"; "requests per day"]
              /\ Str.contains ind (Str.lower error_message) = true.
Proof.
  unfold _is_quota_error; rewrite existsb_map_lower, quota_indicators_lower.
  apply existsb_exists.
Qed.

(** ** Step lookup is insensitive to the storage order *)

Lemma find_insert_step (x : Step) (l : list Step) (k : Z) :
  find_step (insert_step x l) k =
  if step_id x =? k then Some x else find_step l k.
Proof.
  unfold find_step; induction l as [|y l IH]; simpl.
  - reflexivity.
  - destruct (step_id x <=? step_id y) eqn:Hxy; simpl.
    + destruct (step_id x =? k); reflexivity.
    + rewrite IH.
      destruct (step_id y =? k) eqn:Hy, (step_id x =? k) eqn:Hx; try reflexivity.
      apply Z.eqb_eq in Hy, Hx; apply Z.leb_gt in Hxy; lia.
Qed.

(** The first step with a given id in the sorted list is the first one
    in storage order. *)
Lemma find_sort_steps (l : list Step) (k : Z) :
  find_step (sort_steps l) k = find_step l k.
Proof.
  induction l as [|x l IH]; simpl; [reflexivity|].
  rewrite find_insert_step, IH; reflexivity.
Qed.

(** Symbolic execution of the fallback engine. *)
Ltac unfold_engine :=
  cbv beta iota zeta delta
    [_get_fallback_response fallback_body fallback_advance first_question
     try_except bind ret raise get_session put_session modify
     save_user_session get_user_session working store save_oracle];
  rewrite ?find_sort_steps.

(** ** Claim C10: an empty or blank message on an active step *)

(** C10's engine run: on an existing step [cur] a blank message gets
    the step's question back and the turn state is left as it was. *)
Lemma blank_message_returns_question (fl : option Flow) (w : World)
    (message : string) (cur : Z) (st : Step) :
  fallback_step (working w) = Some cur ->
  find_step (steps (the_flow fl)) cur = Some st ->
  Str.strip message = "" ->
  _get_fallback_response fl message w = (inl (question st), w).
Proof.
  intros Hcur Hfind Hblank.
  destruct w as [sess sto orc]; cbn [working] in Hcur.
  unfold_engine.
  destruct (steps (the_flow fl)) as [|s0 l0] eqn:Hs; [discriminate|].
  repeat progress (cbv beta iota zeta; rewrite ?find_sort_steps, ?Hcur, ?Hfind, ?Hblank).
  rewrite Bool.andb_false_r; reflexivity.
Qed.

(** C10. When fallback is active on an existing step [cur] of the flow
    and not completed, an empty or whitespace-only message (whitespace
    as Python's [str.strip] counts it, NBSP and U+3000 included) gets
    the current step's question back and the turn state (session copy,
    stored copy and store writes) is left exactly as it was. *)
Theorem fallback_blank_message_keeps_step (fl : option Flow) (w : World)
    (message : string) (cur : Z) (st : Step) :
  fallback_step (working w) = Some cur ->
  fallback_completed (working w) = false ->
  find_step (steps (the_flow fl)) cur = Some st ->
  Str.strip message = "" ->
  _get_fallback_response fl message w = (inl (question st), w).
Proof.
  intros Hcur _ Hfind Hblank; exact (blank_message_returns_question fl w message cur st
                                       Hcur Hfind Hblank).
Qed.

Definition sample_session (step : option Z) (lead : dict) : Session :=
  mkSession "s1" "web" lead 3 step false false false None None None None.

Lemma fallback_blank_message_keeps_step_witness :
  _get_fallback_response None "  　 "
    (mkWorld (sample_session (Some 2) [("step_1", "Ana Souza")]) None []) =
  (inl "Em qual √°rea do direito voc√™ precisa de ajuda?",
   mkWorld (sample_session (Some 2) [("step_1", "Ana Souza")]) None []).
Proof.
  apply (fallback_blank_message_keeps_step None _ "  　 " 2
           (mkStep 2 "Em qual √°rea do direito voc√™ precisa de ajuda?"));
    vm_compute; reflexivity.
Defined.

(** ** Frame lemmas for the engine *)

Lemma try_except_ret_world {A} (m : M A) (x : A) (w : World) :
  snd (try_except m (fun _ => ret x) w) = snd (m w).
Proof. unfold try_except, ret; destruct (m w) as [[a|e] w']; reflexivity. Qed.

(** The fields an engine write leaves alone. *)
Definition same_frame (s s' : Session) : Prop :=
  lead_data s' = lead_data s /\ message_count s' = message_count s /\
  gemini_available s' = gemini_available s /\ phone_submitted s' = phone_submitted s.

(** A store write of a turn either fails or stores the session copy. *)
Definition store_follows (w w' : World) : Prop :=
  store w' = store w \/ store w' = Some (working w').

Lemma fallback_advance_frame (sorted : list Step) (cur : Z) (w : World) :
  let w' := snd (fallback_advance sorted cur w) in
  same_frame (working w) (working w') /\ store_follows w w'.
Proof.
  destruct w as [sess sto orc].
  unfold fallback_advance, bind, modify, save_user_session, ret, same_frame, store_follows.
  destruct (find_step sorted (cur + 1)); cbn;
    destruct orc as [|[|] rest]; cbn; repeat split; auto.
Qed.

Lemma strip_nonblank_truthy (message : string) :
  Str.strip message <> "" ->
  Str.truthy message && Str.truthy (Str.strip message) = true.
Proof.
  intros H; destruct message as [|c m]; [contradiction H; reflexivity|].
  destruct (Str.strip (String c m)) eqn:E; [contradiction|reflexivity].
Qed.

(** ** Claim C6: an already-answered step *)

(** The claim as stated: any non-empty message on an answered current
    step goes straight to the advancement of lines 376-391. *)
Definition claim_C6_as_stated : Prop :=
  forall (fl : option Flow) (w : World) (message : string) (s : Z) (st : Step),
    fallback_step (working w) = Some s ->
    find_step (steps (the_flow fl)) s = Some st ->
    dict_mem ("step_" ++ Str.show_Z s) (lead_data (working w)) = true ->
    message <> "" ->
    fallback_body fl message w = fallback_advance (sort_steps (steps (the_flow fl))) s w.

(** C6 (counterexample). The message " " is non-empty but blank: on an
    answered step 1 of the default flow the engine re-asks step 1
    instead of advancing to step 2. *)
Lemma resubmission_counterexample : ~ claim_C6_as_stated.
Proof.
  intros H.
  specialize (H None (mkWorld (sample_session (Some 1) [("step_1", "Ana Souza")]) None [])
                " " 1 (mkStep 1 name_question) eq_refl eq_refl eq_refl
                ltac:(discriminate)).
  vm_compute in H; discriminate H.
Qed.

(** C6 (amended). When the current step [s] is a step of the flow and
    [lead_data] already holds ["step_s"], a message that is not blank
    (not empty and not only whitespace) is not validated: the engine
    runs exactly the advancement of lines 376-391, and the stored
    answers, in the session copy and in any stored copy, are the ones
    held before. A blank message instead gets the current question
    back, with the turn state left as it was. *)
Theorem resubmission_advances (fl : option Flow) (w : World) (message : string)
    (s : Z) (st : Step) :
  fallback_step (working w) = Some s ->
  find_step (steps (the_flow fl)) s = Some st ->
  dict_mem ("step_" ++ Str.show_Z s) (lead_data (working w)) = true ->
  (Str.strip message <> "" ->
   fallback_body fl message w = fallback_advance (sort_steps (steps (the_flow fl))) s w /\
   let w' := snd (_get_fallback_response fl message w) in
   lead_data (working w') = lead_data (working w) /\ store_follows w w') /\
  (Str.strip message = "" ->
   _get_fallback_response fl message w = (inl (question st), w)).
Proof.
  intros Hcur Hfind Hmem; split;
    [intros Hblank | exact (blank_message_returns_question fl w message s st Hcur Hfind)].
  assert (Hbody : fallback_body fl message w =
                  fallback_advance (sort_steps (steps (the_flow fl))) s w).
  { destruct w as [sess sto orc]; cbn [working] in Hcur, Hmem.
    unfold fallback_body, bind, get_session; cbn [working].
    destruct (steps (the_flow fl)) as [|s0 l0] eqn:Hs; [discriminate|].
    pose proof (strip_nonblank_truthy _ Hblank) as Ht.
    repeat progress (cbv beta iota zeta; cbn [working store save_oracle];
                     rewrite ?find_sort_steps, ?Hcur, ?Hfind, ?Ht, ?Hmem).
    reflexivity. }
  split; [exact Hbody|].
  cbv zeta; unfold _get_fallback_response; rewrite try_except_ret_world, Hbody.
  destruct (fallback_advance_frame (sort_steps (steps (the_flow fl))) s w)
    as [[Hl _] Hst].
  split; [exact Hl | exact Hst].
Qed.

(** C6 at a repeated name, and at a message of NBSP only. *)
Lemma resubmission_advances_witness :
  fallback_body None "Ana Souza"
    (mkWorld (sample_session (Some 1) [("step_1", "Ana Souza")]) None []) =
  fallback_advance (sort_steps (steps default_flow)) 1
    (mkWorld (sample_session (Some 1) [("step_1", "Ana Souza")]) None []) /\
  _get_fallback_response None " "
    (mkWorld (sample_session (Some 1) [("step_1", "Ana Souza")]) None []) =
  (inl name_question, mkWorld (sample_session (Some 1) [("step_1", "Ana Souza")]) None []).
Proof.
  destruct (resubmission_advances None
              (mkWorld (sample_session (Some 1) [("step_1", "Ana Souza")]) None [])
              "Ana Souza" 1 (mkStep 1 name_question) eq_refl eq_refl eq_refl) as [H1 _].
  destruct (resubmission_advances None
              (mkWorld (sample_session (Some 1) [("step_1", "Ana Souza")]) None [])
              " " 1 (mkStep 1 name_question) eq_refl eq_refl eq_refl) as [_ H2].
  split.
  - apply H1; intros Hx; vm_compute in Hx; discriminate Hx.
  - apply H2; vm_compute; reflexivity.
Defined.

(** ** Claim C4: first activation of the fallback flow *)

(** The step of least id, as the claim describes the activation target. *)
Definition lowest_step (l : list Step) : option Step :=
  fold_right (fun x acc => match acc with
                           | None => Some x
                           | Some y => if step_id x <=? step_id y then Some x else Some y
                           end) None l.


Definition flow_2_3 : Flow := mkFlow [mkStep 2 "Q2"; mkStep 3 "Q3"] None.




(** ** Claim C1: advancing after an answered step *)




Definition flow_1_3 : Flow := mkFlow [mkStep 1 "Q1"; mkStep 3 "Q3"] None.





(** ** Invariants of monadic code

    [preserves P m]: whatever [m] does, including raising, a world in
    [P] stays in [P]. [returns R m]: every value [m] returns satisfies
    [R]. *)

Definition preserves {A} (P : World -> Prop) (m : M A) : Prop :=
  forall w, P w -> P (snd (m w)).

Definition returns {A} (R : A -> Prop) (m : M A) : Prop :=
  forall w, match fst (m w) with inl x => R x | inr _ => True end.

Section Invariants.

Variable P : World -> Prop.

Lemma ret_pres {A} (x : A) : preserves P (ret x).
Proof. intros w H; exact H. Qed.

Lemma raise_pres {A} (e : exn) : preserves P (@raise A e).
Proof. intros w H; exact H. Qed.

Lemma get_session_pres : preserves P get_session.
Proof. intros w H; exact H. Qed.

Lemma get_user_session_pres : preserves P get_user_session.
Proof. intros w H; exact H. Qed.

Lemma bind_pres {A B} (m : M A) (k : A -> M B) :
  preserves P m -> (forall x, preserves P (k x)) -> preserves P (bind m k).
Proof.
  intros Hm Hk w H; unfold bind.
  specialize (Hm w H); destruct (m w) as [[x|e] w']; [apply Hk|]; exact Hm.
Qed.

Lemma try_pres {A} (m : M A) (h : exn -> M A) :
  preserves P m -> (forall e, preserves P (h e)) -> preserves P (try_except m h).
Proof.
  intros Hm Hh w H; unfold try_except.
  specialize (Hm w H); destruct (m w) as [[x|e] w']; [|apply Hh]; exact Hm.
Qed.

End Invariants.

Lemma ret_returns {A} (R : A -> Prop) (x : A) : R x -> returns R (ret x).
Proof. intros H w; exact H. Qed.

Lemma raise_returns {A} (R : A -> Prop) (e : exn) : returns R (@raise A e).
Proof. intros w; exact I. Qed.

Lemma bind_returns {A B} (R1 : A -> Prop) (R : B -> Prop) (m : M A) (k : A -> M B) :
  returns R1 m -> (forall x, R1 x -> returns R (k x)) -> returns R (bind m k).
Proof.
  intros Hm Hk w; unfold bind.
  specialize (Hm w); destruct (m w) as [[x|e] w']; [apply Hk, Hm | exact I].
Qed.

Lemma bind_returns_any {A B} (R : B -> Prop) (m : M A) (k : A -> M B) :
  (forall x, returns R (k x)) -> returns R (bind m k).
Proof.
  intros Hk w; unfold bind; destruct (m w) as [[x|e] w']; [apply Hk | exact I].
Qed.

Lemma try_returns {A} (R : A -> Prop) (m : M A) (h : exn -> M A) :
  returns R m -> (forall e, returns R (h e)) -> returns R (try_except m h).
Proof.
  intros Hm Hh w; unfold try_except.
  specialize (Hm w); destruct (m w) as [[x|e] w']; [exact Hm | apply Hh].
Qed.

(** A [try] whose handler only returns never raises. *)
Lemma try_ret_total {A} (m : M A) (x : A) (w : World) :
  exists y, fst (try_except m (fun _ => ret x) w) = inl y.
Proof.
  unfold try_except, ret; destruct (m w) as [[y|e] w']; eexists; reflexivity.
Qed.

(** Invariants of the session: [Q] holds of the working copy and of a
    stored copy. *)
Definition lifted (Q : Session -> Prop) (w : World) : Prop :=
  Q (working w) /\ exists S, store w = Some S /\ Q S.

Lemma save_lifted_pres (Q : Session -> Prop) : preserves (lifted Q) save_user_session.
Proof.
  intros [sess sto orc] [HQ [S [HS HQS]]]; unfold save_user_session; cbn in *.
  destruct orc as [|[|] rest]; cbn; split; auto;
    [exists sess | exists sess | exists S]; auto.
Qed.

Lemma modify_lifted_pres (Q : Session -> Prop) (f : Session -> Session) :
  (forall s, Q s -> Q (f s)) -> preserves (lifted Q) (modify f).
Proof.
  intros Hf [sess sto orc] [HQ HS]; unfold modify; cbn in *; split; [apply Hf|]; auto.
Qed.

Ltac pres_auto :=
  repeat first
    [ progress cbv zeta
    | apply bind_pres; [|intro]
    | apply try_pres; [|intro]
    | apply ret_pres | apply raise_pres
    | apply get_session_pres | apply get_user_session_pres
    | apply save_lifted_pres
    | apply modify_lifted_pres; intros ? ?
    | match goal with |- preserves _ (match ?x with _ => _ end) => destruct x end ].

(** ** Component frame lemmas *)

Section Frames.

Variable Q : Session -> Prop.
Hypothesis Q_fallback_step : forall v s, Q s -> Q (set_fallback_step v s).
Hypothesis Q_lead_data : forall d s, Q s -> Q (set_lead_data d s).
Hypothesis Q_fallback_completed : forall b s, Q s -> Q (set_fallback_completed b s).

Lemma fallback_advance_pres (sorted : list Step) (cur : Z) :
  preserves (lifted Q) (fallback_advance sorted cur).
Proof. unfold fallback_advance; pres_auto; auto. Qed.

Lemma fallback_body_pres (fl : option Flow) (message : string) :
  preserves (lifted Q) (fallback_body fl message).
Proof. unfold fallback_body; pres_auto; auto; apply fallback_advance_pres. Qed.

Lemma fallback_response_pres (fl : option Flow) (message : string) :
  preserves (lifted Q) (_get_fallback_response fl message).
Proof.
  unfold _get_fallback_response; apply try_pres;
    [apply fallback_body_pres | intro; apply ret_pres].
Qed.

Hypothesis Q_phone_collected : forall c f s, Q s -> Q (set_phone_collected c f s).
Hypothesis Q_turn : forall m r s, Q s -> Q (set_turn m r s).
Hypothesis Q_phone_number : forall p s, Q s -> Q (set_phone_number p s).

Lemma phone_collection_pres (fl : option Flow) (wa : bool) (message : string) :
  preserves (lifted Q) (_handle_phone_collection fl wa message).
Proof. unfold _handle_phone_collection; pres_auto; auto. Qed.

Lemma attempt_gemini_pres (ai : ai_outcome) :
  (forall b s, Q s -> Q (set_gemini_available b s)) ->
  preserves (lifted Q) (_attempt_gemini_response ai).
Proof.
  intros Hg; unfold _attempt_gemini_response, _mark_gemini_unavailable, call_ai.
  pres_auto; auto.
Qed.

(** [_get_or_create_session] loads the stored session into the
    working copy. *)
Lemma get_or_create_lifted (sid plat : string) (phone : option string)
    (w : World) (S : Session) :
  store w = Some S -> Q S ->
  lifted Q (snd (_get_or_create_session sid plat phone w)).
Proof.
  intros Hst HQ; destruct w as [sess sto orc]; cbn in Hst; subst sto.
  unfold _get_or_create_session, bind, get_user_session, put_session, ret; cbn.
  unfold lifted; cbn; split; [|exists S; split; [reflexivity | exact HQ]].
  destruct phone as [p|]; [destruct (Str.truthy p)|]; auto.
Qed.

(** A whole turn keeps [Q] of the stored session, provided the AI
    attempt does. *)
Lemma process_message_lifted (fl : option Flow) (ai : ai_outcome) (wa : bool)
    (message sid : string) (phone : option string) (plat : string)
    (w : World) (S : Session) :
  preserves (lifted Q) (_attempt_gemini_response ai) ->
  store w = Some S -> Q S ->
  lifted Q (snd (process_message fl ai wa message sid phone plat w)).
Proof.
  intros Hai Hst HQ.
  pose proof (get_or_create_lifted sid plat phone w S Hst HQ) as H1.
  unfold process_message, try_except at 1, bind at 1.
  destruct (_get_or_create_session sid plat phone w) as [[S1|e] w1]; cbn in H1.
  - assert (Hk : preserves (lifted Q)
      (if fallback_completed S1 && negb (phone_submitted S1) && _is_phone_number message
       then (phone_response <- _handle_phone_collection fl wa message ;;
             s <- get_session ;;
             ret [("response_type", PStr "phone_collected_fallback");
                  ("platform", PStr plat); ("session_id", PStr sid);
                  ("response", PStr phone_response); ("phone_submitted", PBool true);
                  ("message_count", PInt (message_count s + 1))])
       else (ai_response <- _attempt_gemini_response ai ;;
             let fallback_path :=
               fallback_response <- _get_fallback_response fl message ;;
               modify (set_turn message fallback_response) ;;
               save_user_session ;;
               s <- get_session ;;
               ret [("response_type", PStr "fallback_firebase");
                    ("platform", PStr plat); ("session_id", PStr sid);
                    ("response", PStr fallback_response); ("ai_mode", PBool false);
                    ("gemini_available", PBool false);
                    ("fallback_step", opt_Z_val (fallback_step s));
                    ("fallback_completed", PBool (fallback_completed s));
                    ("message_count", PInt (message_count s))] in
             match ai_response with
             | Some r =>
                 if Str.truthy r then
                   modify (set_turn message r) ;;
                   save_user_session ;;
                   s <- get_session ;;
                   ret [("response_type", PStr "ai_intelligent");
                        ("platform", PStr plat); ("session_id", PStr sid);
                        ("response", PStr r); ("ai_mode", PBool true);
                        ("gemini_available", PBool true);
                        ("message_count", PInt (message_count s))]
                 else fallback_path
             | None => fallback_path
             end))).
    { destruct (_ && _ && _).
      - apply bind_pres; [apply phone_collection_pres|]; intro; pres_auto.
      - apply bind_pres; [exact Hai|]; intro.
        cbv zeta; destruct x as [r|]; [destruct (Str.truthy r)|];
          pres_auto; auto;
          try (apply fallback_body_pres; auto). }
    specialize (Hk w1 H1).
    destruct (_ w1) as [[res|e] w2]; [exact Hk|].
    exact Hk.
  - exact H1.
Qed.

End Frames.

(** [_attempt_gemini_response] does nothing at all once the session's
    flag is false (lines 198-200). *)
Lemma attempt_gemini_unavailable (ai : ai_outcome) (w : World) :
  gemini_available (working w) = false ->
  _attempt_gemini_response ai w = (inl None, w).
Proof.
  intros H; unfold _attempt_gemini_response, bind, get_session, ret.
  rewrite H; reflexivity.
Qed.

(** ** Claim C2: recovery of the per-session AI flag *)

Definition gemini_off (s : Session) : Prop := gemini_available s = false.

Lemma attempt_gemini_off_pres (ai : ai_outcome) :
  preserves (lifted gemini_off) (_attempt_gemini_response ai).
Proof.
  intros w Hw; rewrite attempt_gemini_unavailable by apply Hw; exact Hw.
Qed.

(** C2 (code_bug). Once the stored session has [gemini_available]
    false, no turn sets it back to true: whatever the AI backend would
    answer, a valid reply included, the stored session still has the
    flag false after [process_message]. The early return of lines
    198-200 skips the AI call, so the restore of lines 235-239 is never
    reached. *)
Theorem gemini_flag_never_recovers (fl : option Flow) (ai : ai_outcome) (wa : bool)
    (message sid : string) (phone : option string) (plat : string)
    (w : World) (S : Session) :
  store w = Some S -> gemini_available S = false ->
  exists S', store (snd (process_message fl ai wa message sid phone plat w)) = Some S'
             /\ gemini_available S' = false.
Proof.
  intros Hst Hgem.
  destruct (process_message_lifted gemini_off
              (fun _ s H => H) (fun _ s H => H) (fun _ s H => H)
              (fun _ _ s H => H) (fun _ _ s H => H) (fun _ s H => H) fl ai wa message sid phone plat w S
              (attempt_gemini_off_pres ai) Hst Hgem) as [_ HS].
  exact HS.
Qed.

Definition world_ai_off : World :=
  mkWorld (sample_session (Some 2) [("step_1", "Ana Souza")])
          (Some (sample_session (Some 2) [("step_1", "Ana Souza")])) [].

Lemma gemini_flag_never_recovers_witness :
  exists S', store (snd (process_message None (AIReturn (Some "Claro, posso ajudar.")) true
                           "Preciso de ajuda" "s1" None "web" world_ai_off)) = Some S'
             /\ gemini_available S' = false.
Proof.
  exact (gemini_flag_never_recovers None (AIReturn (Some "Claro, posso ajudar.")) true
           "Preciso de ajuda" "s1" None "web" world_ai_off
           (sample_session (Some 2) [("step_1", "Ana Souza")]) eq_refl eq_refl).
Defined.

(** On that input the valid AI reply is not used: the turn is answered
    by the fallback flow. *)
Example gemini_valid_reply_ignored :
  result_get "response_type"
    (match fst (process_message None (AIReturn (Some "Claro, posso ajudar.")) true
                  "Preciso de ajuda" "s1" None "web" world_ai_off) with
     | inl r => r | inr _ => [] end) = Some (PStr "fallback_firebase").
Proof. vm_compute; reflexivity. Qed.

(** ** Claim C9: message count on the phone-collection path *)

(** The session [_get_or_create_session] loads when one is stored. *)
Definition loaded_session (phone : option string) (S : Session) : Session :=
  match phone with
  | Some p => if Str.truthy p then set_phone_number p S else S
  | None => S
  end.

Lemma get_or_create_stored (sid plat : string) (phone : option string)
    (w : World) (S : Session) :
  store w = Some S ->
  _get_or_create_session sid plat phone w =
  (inl (loaded_session phone S),
   mkWorld (loaded_session phone S) (Some S) (save_oracle w)).
Proof.
  intros Hst; destruct w as [sess sto orc]; cbn in Hst; subst sto; reflexivity.
Qed.

Lemma loaded_session_fields (phone : option string) (S : Session) :
  fallback_completed (loaded_session phone S) = fallback_completed S /\
  phone_submitted (loaded_session phone S) = phone_submitted S /\
  message_count (loaded_session phone S) = message_count S /\
  gemini_available (loaded_session phone S) = gemini_available S /\
  fallback_step (loaded_session phone S) = fallback_step S.
Proof.
  unfold loaded_session; destruct phone as [p|]; [destruct (Str.truthy p)|];
    repeat split.
Qed.

Definition count_is (c : Z) (s : Session) : Prop := message_count s = c.

Definition result_of (r : result + exn) : result :=
  match r with inl res => res | inr _ => [] end.

(** Symbolic execution of a turn: unfold the code, then case split on
    the innermost stuck [match]. *)
Ltac turn_reduce :=
  cbv beta iota zeta delta
    [process_message _get_or_create_session _handle_phone_collection
     _attempt_gemini_response _mark_gemini_unavailable call_ai
     _get_fallback_response fallback_body fallback_advance first_question
     try_except bind ret raise get_session put_session modify
     save_user_session get_user_session];
  cbn [working store save_oracle fst snd
       fallback_step lead_data message_count gemini_available phone_submitted
       fallback_completed session_id platform
       set_fallback_step set_lead_data set_fallback_completed set_gemini_available
       set_phone_number set_phone_collected set_turn].

Ltac split_innermost :=
  match goal with
  | |- context [match ?x with _ => _ end] =>
      lazymatch x with
      | context [match _ with _ => _ end] => fail
      | _ => destruct x eqn:?
      end
  end.

Ltac run_turn := repeat (turn_reduce; split_innermost); turn_reduce.

(** Off the phone route, with every store write succeeding, the turn
    stores the session with its count plus one. *)
Lemma other_paths_increment_count (fl : option Flow) (ai : ai_outcome) (wa : bool)
    (message sid : string) (phone : option string) (plat : string)
    (w : World) (S : Session) :
  store w = Some S -> save_oracle w = [] ->
  fallback_completed S && negb (phone_submitted S) && _is_phone_number message = false ->
  exists S', store (snd (process_message fl ai wa message sid phone plat w)) = Some S'
             /\ message_count S' = message_count S + 1.
Proof.
  intros Hst Horc Hroute.
  destruct (loaded_session_fields phone S) as [Hc1 [Hp1 [Hm1 _]]].
  destruct w as [sess sto orc]; cbn in Hst, Horc; subst sto orc.
  unfold process_message, try_except at 1, bind at 1.
  rewrite (get_or_create_stored sid plat phone (mkWorld sess (Some S) []) S eq_refl).
  cbv beta iota; cbn [save_oracle]; rewrite Hc1, Hp1, Hroute.
  clear Hc1 Hp1; revert Hm1; generalize (loaded_session phone S) as S1; intros S1 Hm.
  run_turn.
  all: eexists; split; [reflexivity | cbn; rewrite ?Hm; lia].
Qed.

(** On the phone-collection route the stored count is untouched while
    the result reports it plus one. *)
Lemma phone_route_count (fl : option Flow) (ai : ai_outcome) (wa : bool)
    (message sid : string) (phone : option string) (plat : string)
    (w : World) (S : Session) :
  store w = Some S ->
  fallback_completed S = true -> phone_submitted S = false ->
  _is_phone_number message = true ->
  let (r, w') := process_message fl ai wa message sid phone plat w in
  result_get "response_type" (result_of r) = Some (PStr "phone_collected_fallback") /\
  result_get "message_count" (result_of r) = Some (PInt (message_count S + 1)) /\
  exists S', store w' = Some S' /\ message_count S' = message_count S.
Proof.
  intros Hst Hc Hp Hph.
  destruct (loaded_session_fields phone S) as [Hc1 [Hp1 [Hm1 _]]].
  unfold process_message, try_except at 1, bind at 1.
  rewrite (get_or_create_stored sid plat phone w S Hst).
  rewrite Hc1, Hp1, Hc, Hp, Hph; cbn [andb negb].
  set (w1 := mkWorld (loaded_session phone S) (Some S) (save_oracle w)).
  assert (H1 : lifted (count_is (message_count S)) w1).
  { split; [exact Hm1 | exists S; split; reflexivity]. }
  pose proof (phone_collection_pres (count_is (message_count S))
                (fun d s H => H) (fun c f s H => H) fl wa message w1 H1) as H2.
  destruct (try_ret_total
              (match normalize_phone message with
               | inl reprompt => ret reprompt
               | inr (phone_clean, phone_formatted) =>
                   modify (set_phone_collected phone_clean phone_formatted) ;;
                   session_data <- get_session ;;
                   modify (set_lead_data (dict_set "phone" phone_clean (lead_data session_data))) ;;
                   save_user_session ;;
                   ret (final_phone_message wa phone_clean
                          match completion_message (the_flow fl) with
                          | Some c => c
                          | None => default_completion
                          end)
               end) phone_error_msg w1) as [y Hy].
  unfold bind at 1.
  change (try_except _ (fun _ => ret phone_error_msg)) with
    (_handle_phone_collection fl wa message) in Hy.
  destruct (_handle_phone_collection fl wa message w1) as [res w2] eqn:Eh.
  cbn in Hy; subst res; cbn in H2 |- *.
  destruct H2 as [Hw2 [S' [HS' HcS']]].
  rewrite Hw2; split; [reflexivity | split; [reflexivity | exists S'; split; assumption]].
Qed.

(** C9. On the phone-collection route (fallback completed, phone not
    yet submitted, a message with 10 to 13 digits) the turn is answered
    as [phone_collected_fallback], the stored session's
    [message_count] is left as it was stored before the turn, and the
    returned result reports that count plus one. Off that route, by
    the AI-success or the fallback path, when every store write
    succeeds, the stored count is incremented. *)
Theorem phone_path_keeps_stored_count :
  (forall (fl : option Flow) (ai : ai_outcome) (wa : bool)
          (message sid : string) (phone : option string) (plat : string)
          (w : World) (S : Session),
     store w = Some S ->
     fallback_completed S = true -> phone_submitted S = false ->
     _is_phone_number message = true ->
     let (r, w') := process_message fl ai wa message sid phone plat w in
     result_get "response_type" (result_of r) = Some (PStr "phone_collected_fallback") /\
     result_get "message_count" (result_of r) = Some (PInt (message_count S + 1)) /\
     exists S', store w' = Some S' /\ message_count S' = message_count S) /\
  (forall (fl : option Flow) (ai : ai_outcome) (wa : bool)
          (message sid : string) (phone : option string) (plat : string)
          (w : World) (S : Session),
     store w = Some S -> save_oracle w = [] ->
     fallback_completed S && negb (phone_submitted S) && _is_phone_number message = false ->
     exists S', store (snd (process_message fl ai wa message sid phone plat w)) = Some S'
                /\ message_count S' = message_count S + 1).
Proof. split; [exact phone_route_count | exact other_paths_increment_count]. Qed.

Definition world_awaiting_phone : World :=
  let s := mkSession "s1" "web" [("step_1", "Ana Souza")] 5 (Some 4) false false true
                     None None None None in
  mkWorld s (Some s) [].

Lemma phone_path_keeps_stored_count_witness :
  let (r, w') := process_message None (AIRaise "429") true "11 98765-4321" "s1" None "web"
                   world_awaiting_phone in
  result_get "response_type" (result_of r) = Some (PStr "phone_collected_fallback") /\
  result_get "message_count" (result_of r) = Some (PInt 6) /\
  exists S', store w' = Some S' /\ message_count S' = 5.
Proof.
  exact (proj1 phone_path_keeps_stored_count None (AIRaise "429") true "11 98765-4321" "s1" None
           "web" world_awaiting_phone
           (mkSession "s1" "web" [("step_1", "Ana Souza")] 5 (Some 4) false false true
                      None None None None)
           eq_refl eq_refl eq_refl eq_refl).
Defined.

(** ** Claim C5: [fallback_step] never goes back, except to step 1 *)

(** [fallback_step] is at least [k], or it is 1 and [k] is not a step id
    of the flow. *)
Definition step_at_least (fl : option Flow) (k : Z) (s : Session) : Prop :=
  exists k', fallback_step s = Some k' /\
             (k <= k' \/ (find_step (steps (the_flow fl)) k = None /\ k' = 1)).

Lemma step_at_least_refl (fl : option Flow) (k : Z) (s : Session) :
  fallback_step s = Some k -> step_at_least fl k s.
Proof. intros H; exists k; split; [exact H | left; lia]. Qed.

(** The AI attempt only touches [gemini_available]; a store write it
    makes stores the session copy. *)
Lemma attempt_gemini_frame (ai : ai_outcome) (w : World) :
  let w' := snd (_attempt_gemini_response ai w) in
  fallback_step (working w') = fallback_step (working w) /\
  store_follows w w'.
Proof.
  destruct w as [sess sto orc]; unfold store_follows; run_turn.
  all: split; [reflexivity | first [left; reflexivity | right; reflexivity]].
Qed.

(** The engine, started on step [k], leaves the session copy and any
    stored copy at step [k] or later, or at step 1 when [k] is not in
    the flow. *)
Lemma fallback_response_monotone (fl : option Flow) (message : string) (k : Z)
    (w : World) :
  fallback_step (working w) = Some k ->
  lifted (step_at_least fl k) w ->
  lifted (step_at_least fl k) (snd (_get_fallback_response fl message w)).
Proof.
  intros Hcur Hw; destruct w as [sess sto orc]; cbn [working] in Hcur.
  destruct Hw as [_ [S0 [HS0 HR0]]]; cbn [store] in HS0; subst sto.
  unfold lifted, step_at_least in *.
  repeat (turn_reduce; rewrite ?find_sort_steps, ?Hcur; split_innermost);
    turn_reduce.
  all: split; [| eexists; split; [reflexivity |]].
  all: first
    [ exact HR0
    | eexists; split;
        [ cbn [fallback_step set_fallback_step set_lead_data set_fallback_completed];
          first [exact Hcur | reflexivity]
        | first [left; lia
                | right; split; [rewrite find_sort_steps in *; assumption | reflexivity]] ] ].
Qed.

Ltac pres_from H :=
  lazymatch goal with
  | |- lifted ?Q (snd (?m ?w)) =>
      let Hp := fresh "Hp" in
      cut (preserves (lifted Q) m); [intros Hp; exact (Hp w H) | pres_auto; auto]
  end.

(** C5 as stated: the only step that goes back is a reset to the first
    step, the one of lowest id. *)
Definition claim_C5_as_stated : Prop :=
  forall (fl : option Flow) (ai : ai_outcome) (wa : bool) (message sid : string)
         (phone : option string) (plat : string) (w : World) (S : Session) (k : Z),
    store w = Some S -> fallback_step S = Some k ->
    exists S', store (snd (process_message fl ai wa message sid phone plat w)) = Some S' /\
      exists k', fallback_step S' = Some k' /\
        (k <= k' \/ (find_step (steps (the_flow fl)) k = None /\
                     exists st, lowest_step (steps (the_flow fl)) = Some st /\ k' = step_id st)).

(** A session stored at step 5 of a flow with steps 2 and 3 (AI off). *)
Definition world_lost_step : World :=
  mkWorld (sample_session (Some 5) []) (Some (sample_session (Some 5) [])) [].

(** C5 (counterexample). With steps 2 and 3 and a stored step 5, the
    turn resets [fallback_step] to 1: below 5, and not the lowest id 2. *)
Lemma step_reset_counterexample : ~ claim_C5_as_stated.
Proof.
  intros H.
  destruct (H (Some flow_2_3) AITimeout true "oi" "s1" None "web" world_lost_step
              (sample_session (Some 5) []) 5 eq_refl eq_refl)
    as [S' [HS [k' [Hk' Hor]]]].
  vm_compute in HS; injection HS as <-; vm_compute in Hk'; injection Hk' as <-.
  destruct Hor as [Hle | [_ [st [Hst Heq]]]]; [lia |].
  vm_compute in Hst; injection Hst as <-; vm_compute in Heq; discriminate Heq.
Qed.

(** C5 (amended). Take a stored session at step [k]. After any turn
    (whatever the AI outcome, the route, or which store writes fail),
    the stored session has a [fallback_step] k' with k <= k', or with
    k' = 1 when [k] is not a step id of the loaded flow; the reset goes
    to id 1 whether or not the flow has a step 1. *)
Theorem fallback_step_never_decreases (fl : option Flow) (ai : ai_outcome) (wa : bool)
    (message sid : string) (phone : option string) (plat : string)
    (w : World) (S : Session) (k : Z) :
  store w = Some S -> fallback_step S = Some k ->
  exists S', store (snd (process_message fl ai wa message sid phone plat w)) = Some S'
             /\ step_at_least fl k S'.
Proof.
  intros Hst Hk.
  unfold process_message, try_except at 1, bind at 1.
  rewrite (get_or_create_stored sid plat phone w S Hst); cbv beta iota.
  destruct (loaded_session_fields phone S) as [_ [_ [_ [_ Hf1]]]].
  revert Hf1; generalize (loaded_session phone S) as S1; intros S1 Hf1.
  assert (H1 : lifted (step_at_least fl k) (mkWorld S1 (Some S) (save_oracle w))).
  { split; [apply step_at_least_refl; cbn [working]; rewrite Hf1; exact Hk |].
    exists S; split; [reflexivity | apply step_at_least_refl; exact Hk]. }
  lazymatch goal with
  | |- context [match ?m with _ => _ end] =>
      assert (Hb : lifted (step_at_least fl k) (snd m));
      [| destruct m as [[res|e] w2]; cbn [snd] in Hb; unfold ret; cbn;
         destruct Hb as [_ HS]; exact HS]
  end.
  destruct (_ && _ && _).
  - pres_from H1; apply phone_collection_pres; auto.
  - unfold bind at 1.
    destruct (attempt_gemini_frame ai (mkWorld S1 (Some S) (save_oracle w))) as [Hf2 Hs2].
    destruct (_attempt_gemini_response ai _) as [[x|e] w2]; cbn [snd working store] in Hf2, Hs2.
    all: assert (Hw2 : fallback_step (working w2) = Some k) by (rewrite Hf2, Hf1; exact Hk).
    all: assert (H2 : lifted (step_at_least fl k) w2) by
     (split; [apply step_at_least_refl; exact Hw2|];
      destruct Hs2 as [Hs2 | Hs2]; rewrite Hs2; eexists; split; try reflexivity;
        apply step_at_least_refl; [exact Hk | exact Hw2]).
    2: exact H2.
    cbv zeta; destruct x as [r|]; [destruct (Str.truthy r)|].
    + pres_from H2.
    + unfold bind at 1.
      pose proof (fallback_response_monotone fl message k w2 Hw2 H2) as H3.
      destruct (_get_fallback_response fl message w2) as [[fr|e'] w3]; cbn [snd] in H3.
      * pres_from H3.
      * exact H3.
    + unfold bind at 1.
      pose proof (fallback_response_monotone fl message k w2 Hw2 H2) as H3.
      destruct (_get_fallback_response fl message w2) as [[fr|e'] w3]; cbn [snd] in H3.
      * pres_from H3.
      * exact H3.
Qed.

Lemma fallback_step_never_decreases_witness :
  store world_lost_step = Some (sample_session (Some 5) []) /\
  fallback_step (sample_session (Some 5) []) = Some 5 /\
  exists S', store (snd (process_message (Some flow_2_3) AITimeout true "oi" "s1" None "web"
                            world_lost_step)) = Some S' /\
             step_at_least (Some flow_2_3) 5 S'.
Proof.
  split; [reflexivity | split; [reflexivity |]].
  exact (fallback_step_never_decreases (Some flow_2_3) AITimeout true "oi" "s1" None "web"
           world_lost_step (sample_session (Some 5) []) 5 eq_refl eq_refl).
Defined.

(** ** Claim C3: the keys of a result, and a non-empty response *)

Definition has_key (k : string) (res : result) : bool :=
  existsb (fun kv => String.eqb (fst kv) k) res.

(** C3 as stated: every turn returns a result with the five keys and a
    non-empty response. *)
Definition claim_C3_as_stated : Prop :=
  forall (fl : option Flow) (ai : ai_outcome) (wa : bool) (message sid : string)
         (phone : option string) (plat : string) (w : World),
    exists res, fst (process_message fl ai wa message sid phone plat w) = inl res /\
      has_key "response_type" res = true /\ has_key "platform" res = true /\
      has_key "session_id" res = true /\ has_key "message_count" res = true /\
      exists r, result_get "response" res = Some (PStr r) /\ r <> "".

(** The shape the code gives every result: the four keys always, and
    [message_count] exactly when the result is not the error one. *)
Definition result_shape (res : result) : Prop :=
  has_key "response_type" res = true /\ has_key "platform" res = true /\
  has_key "session_id" res = true /\
  (exists r, result_get "response" res = Some (PStr r) /\ r <> "") /\
  (has_key "message_count" res = true <->
   result_get "response_type" res <> Some (PStr "error")).

(** The shape the code gives every result, whatever the flow: the
    four keys always, a string [response], and [message_count] exactly
    when the result is not the error one. *)
Definition result_keys (res : result) : Prop :=
  has_key "response_type" res = true /\ has_key "platform" res = true /\
  has_key "session_id" res = true /\
  (exists r, result_get "response" res = Some (PStr r)) /\
  (has_key "message_count" res = true <->
   result_get "response_type" res <> Some (PStr "error")).

Lemma append_nonempty (s1 s2 : string) : s1 <> "" -> s1 ++ s2 <> "".
Proof. destruct s1; [contradiction | discriminate]. Qed.

Lemma In_insert_step (x st : Step) (l : list Step) :
  In st (insert_step x l) -> st = x \/ In st l.
Proof.
  induction l as [|y l IH]; cbn; [intuition |].
  destruct (step_id x <=? step_id y); cbn; [intuition |].
  intros [H | H]; [right; left; exact H |].
  destruct (IH H); [left | right; right]; assumption.
Qed.

Lemma In_sort_steps (st : Step) (l : list Step) : In st (sort_steps l) -> In st l.
Proof.
  induction l as [|x l IH]; cbn; [intuition |].
  intros H; destruct (In_insert_step x st _ H); [left; symmetry | right; apply IH]; assumption.
Qed.

Lemma find_step_sorted_In (l : list Step) (k : Z) (st : Step) :
  find_step (sort_steps l) k = Some st -> In st l.
Proof. intros H; apply In_sort_steps; exact (proj1 (find_some _ _ H)). Qed.

Lemma validation_message_nonempty (k : Z) : _get_validation_message k <> "".
Proof.
  unfold _get_validation_message;
    destruct (k =? 1), (k =? 2), (k =? 3), (k =? 4); discriminate.
Qed.

Ltac returns_auto :=
  repeat match goal with
    | |- returns _ (try_except _ _) => apply try_returns; [|intro]
    | |- returns _ (bind _ _) => apply bind_returns_any; intro
    | |- returns _ (ret _) => apply ret_returns
    | |- returns _ (raise _) => apply raise_returns
    | |- returns _ (match ?x with _ => _ end) => destruct x eqn:?
    | |- returns _ (let _ := _ in _) => cbv zeta
    | |- context [match ?x with _ => _ end] =>
        lazymatch x with context [match _ with _ => _ end] => fail | _ => destruct x eqn:? end
    end.

Section Responses.

Variable flow_loaded : option Flow.
Hypothesis questions_nonempty :
  Forall (fun st => question st <> "") (steps (the_flow flow_loaded)).

Lemma fallback_response_nonempty (message : string) :
  returns (fun r => r <> "") (_get_fallback_response flow_loaded message).
Proof.
  unfold _get_fallback_response, fallback_body, fallback_advance, first_question.
  returns_auto; try discriminate;
    try match goal with
        | H : find_step (sort_steps ?l) _ = Some ?st, HF : Forall _ ?l
          |- question ?st <> "" =>
            exact (proj1 (Forall_forall _ _) HF st (find_step_sorted_In _ _ _ H))
        end.
  apply append_nonempty, validation_message_nonempty.
Qed.

Lemma phone_response_nonempty (wa : bool) (message : string) :
  returns (fun r => r <> "") (_handle_phone_collection flow_loaded wa message).
Proof.
  unfold _handle_phone_collection, final_phone_message.
  returns_auto; try discriminate.
  unfold normalize_phone in *; destruct (_ || _); [|discriminate].
  injection Heqs as <-; discriminate.
Qed.

End Responses.

Lemma truthy_nonempty (s : string) : Str.truthy s = true -> s <> "".
Proof. destruct s; [discriminate | intros _; discriminate]. Qed.

Definition questions_nonempty_b (fl : option Flow) : bool :=
  forallb (fun st => negb (String.eqb (question st) "")) (steps (the_flow fl)).

Lemma questions_nonempty_b_Forall (fl : option Flow) :
  questions_nonempty_b fl = true ->
  Forall (fun st => question st <> "") (steps (the_flow fl)).
Proof.
  intros H; apply Forall_forall; intros st Hin.
  unfold questions_nonempty_b in H; rewrite forallb_forall in H.
  specialize (H st Hin); apply negb_true_iff, String.eqb_neq in H; exact H.
Qed.

Ltac shape_leaf :=
  unfold result_shape, has_key, result_get; cbn;
  split; [reflexivity|]; split; [reflexivity|]; split; [reflexivity|]; split;
  [ eexists; split; [reflexivity | first [assumption | apply truthy_nonempty; assumption | discriminate]]
  | split; intros Hk;
      first [discriminate Hk | discriminate | reflexivity | exfalso; apply Hk; reflexivity] ].

Ltac keys_leaf :=
  unfold result_keys, has_key, result_get; cbn;
  split; [reflexivity|]; split; [reflexivity|]; split; [reflexivity|]; split;
  [ eexists; reflexivity
  | split; intros Hk;
      first [discriminate Hk | discriminate | reflexivity | exfalso; apply Hk; reflexivity] ].

(** A session with no stored copy yet, whose one store write fails. *)
Definition world_save_fails : World :=
  mkWorld (new_session "s1" "web") None [false].

(** A session with no stored copy yet, whose store writes succeed. *)
Definition world_new : World :=
  mkWorld (new_session "s1" "web") None [].

(** A flow whose only question is empty. *)
Definition flow_empty_question : Flow := mkFlow [mkStep 1 ""] None.

(** C3 (counterexample). A valid AI reply whose store write raises
    leads to the top-level handler, whose result has no
    [message_count]; and on a flow whose first question is empty, the
    first fallback turn returns that empty question as its response,
    with no greeting in its place. *)
Lemma result_keys_counterexample :
  (exists res, fst (process_message None (AIReturn (Some "Claro")) true "oi" "s1" None "web"
                      world_save_fails) = inl res /\ has_key "message_count" res = false) /\
  result_get "response"
    (result_of (fst (process_message (Some flow_empty_question) AITimeout true "oi" "s1"
                       None "web" world_new))) = Some (PStr "") /\
  ~ claim_C3_as_stated.
Proof.
  split; [eexists; split; vm_compute; reflexivity |].
  split; [vm_compute; reflexivity |].
  intros H.
  destruct (H None (AIReturn (Some "Claro")) true "oi" "s1" None "web" world_save_fails)
    as [res [Hr [_ [_ [_ [Hmc _]]]]]].
  vm_compute in Hr; injection Hr as <-; vm_compute in Hmc; discriminate Hmc.
Qed.

(** Every turn returns a result of the shape [result_keys]. *)
Lemma process_message_keys (fl : option Flow) (ai : ai_outcome) (wa : bool)
    (message sid : string) (phone : option string) (plat : string) (w : World) :
  exists res, fst (process_message fl ai wa message sid phone plat w) = inl res /\
              result_keys res.
Proof.
  unfold process_message.
  lazymatch goal with
  | |- context [try_except ?b ?h ?w0] =>
      assert (Hb : returns result_keys b);
      [| pose proof (Hb w0) as Hw; unfold try_except;
         destruct (b w0) as [[res|e] w'];
         [exists res; split; [reflexivity | exact Hw] |
          eexists; split; [reflexivity |]; keys_leaf]]
  end.
  apply bind_returns_any; intros S1.
  destruct (_ && _ && _).
  - apply bind_returns_any; intros r; returns_auto; keys_leaf.
  - apply bind_returns_any; intros x; cbv zeta.
    destruct x as [r|]; [destruct (Str.truthy r)|].
    + returns_auto; keys_leaf.
    + apply bind_returns_any; intros fr; returns_auto; keys_leaf.
    + apply bind_returns_any; intros fr; returns_auto; keys_leaf.
Qed.

(** If every question of the loaded flow is non-empty, every turn
    returns a result of the shape [result_shape]. *)
Lemma process_message_shape (fl : option Flow) (ai : ai_outcome) (wa : bool)
    (message sid : string) (phone : option string) (plat : string) (w : World) :
  questions_nonempty_b fl = true ->
  exists res, fst (process_message fl ai wa message sid phone plat w) = inl res /\
              result_shape res.
Proof.
  intros Hq; apply questions_nonempty_b_Forall in Hq.
  unfold process_message.
  lazymatch goal with
  | |- context [try_except ?b ?h ?w0] =>
      assert (Hb : returns result_shape b);
      [| pose proof (Hb w0) as Hw; unfold try_except;
         destruct (b w0) as [[res|e] w'];
         [exists res; split; [reflexivity | exact Hw] |
          eexists; split; [reflexivity |]; shape_leaf]]
  end.
  apply bind_returns_any; intros S1.
  destruct (_ && _ && _).
  - apply (bind_returns (fun r => r <> "")); [apply phone_response_nonempty; exact Hq |].
    intros r Hr; returns_auto; shape_leaf.
  - apply bind_returns_any; intros x; cbv zeta.
    destruct x as [r|]; [destruct (Str.truthy r) eqn:Ht|].
    + returns_auto; shape_leaf.
    + apply (bind_returns (fun r => r <> "")); [apply fallback_response_nonempty; exact Hq |].
      intros fr Hfr; returns_auto; shape_leaf.
    + apply (bind_returns (fun r => r <> "")); [apply fallback_response_nonempty; exact Hq |].
      intros fr Hfr; returns_auto; shape_leaf.
Qed.

(** C3 (amended). [process_message] never raises: every turn returns a
    result with the keys [response_type], [platform] and [session_id]
    and a string [response]; it has [message_count] exactly when it is
    not the error result of the top-level handler; and if every
    question of the loaded flow is non-empty, the [response] is a
    non-empty string. *)
Theorem result_keys_and_response (fl : option Flow) (ai : ai_outcome) (wa : bool)
    (message sid : string) (phone : option string) (plat : string) (w : World) :
  exists res, fst (process_message fl ai wa message sid phone plat w) = inl res /\
    result_keys res /\
    (questions_nonempty_b fl = true ->
     exists r, result_get "response" res = Some (PStr r) /\ r <> "").
Proof.
  destruct (process_message_keys fl ai wa message sid phone plat w) as [res [Hr Hk]].
  exists res; split; [exact Hr |]; split; [exact Hk |].
  intros Hq.
  destruct (process_message_shape fl ai wa message sid phone plat w Hq) as [res' [Hr' Hs]].
  rewrite Hr in Hr'; injection Hr' as <-.
  destruct Hs as [_ [_ [_ [Hn _]]]]; exact Hn.
Qed.

(** C3 on the turn whose store write fails. *)
Lemma result_keys_and_response_witness :
  exists res, fst (process_message None (AIReturn (Some "Claro")) true "oi" "s1" None "web"
                     world_save_fails) = inl res /\
    result_keys res /\
    (questions_nonempty_b None = true ->
     exists r, result_get "response" res = Some (PStr r) /\ r <> "").
Proof.
  exact (result_keys_and_response None (AIReturn (Some "Claro")) true "oi" "s1" None "web"
           world_save_fails).
Defined.

(** * Further properties of the service *)

(** ** String lemmas: on ASCII text [title] keeps the whitespace
    positions, [lower] is idempotent *)



















Lemma lower_char_idem (c : ascii) : Str.lower_char (Str.lower_char c) = Str.lower_char c.
Proof. destruct c as [[] [] [] [] [] [] [] []]; reflexivity. Qed.

Lemma lower_idem (s : string) : Str.lower (Str.lower s) = Str.lower s.
Proof.
  unfold Str.lower; induction s as [|c s IH]; simpl; [reflexivity |].
  rewrite lower_char_idem, IH; reflexivity.
Qed.

Lemma dict_get_set_same (k v : string) (d : dict) : dict_get k (dict_set k v d) = Some v.
Proof.
  induction d as [|[k' v'] d IH]; simpl; [rewrite String.eqb_refl; reflexivity |].
  destruct (String.eqb k k') eqn:E; simpl; rewrite E; [reflexivity | exact IH].
Qed.


(** ** Routing to the phone handler *)

Lemma phone_number_normalizes (message : string) :
  _is_phone_number message = true ->
  exists f, normalize_phone message = inr (Str.filter_str Str.is_digit message, f).
Proof.
  unfold _is_phone_number, normalize_phone; cbv zeta; intros H.
  apply andb_true_iff in H as [H1 H2]; apply Nat.leb_le in H1, H2.
  rewrite (proj2 (Nat.ltb_ge _ _) H1), (proj2 (Nat.ltb_ge _ _) H2); cbn [orb].
  eexists; reflexivity.
Qed.

(** X1. The router's test [_is_phone_number] holds exactly when the
    phone handler accepts the number: on the phone route the handler
    never answers with the invalid-number re-prompt, and a message the
    handler would accept is never kept from it by the router. *)
Theorem phone_router_matches_handler (message : string) :
  _is_phone_number message = true <->
  exists phone_clean phone_formatted,
    normalize_phone message = inr (phone_clean, phone_formatted).
Proof.
  split.
  - intros H; destruct (phone_number_normalizes message H) as [f Hf]; eauto.
  - intros [c [f H]]; unfold normalize_phone in H; cbv zeta in H.
    unfold _is_phone_number.
    destruct ((Str.len (Str.filter_str Str.is_digit message) <? 10)%nat
              || (13 <? Str.len (Str.filter_str Str.is_digit message))%nat) eqn:E;
      [discriminate |].
    apply orb_false_iff in E as [E1 E2]; apply Nat.ltb_ge in E1, E2.
    apply andb_true_iff; split; apply Nat.leb_le; lia.
Qed.

(** [_handle_phone_collection] with an accepted number and a
    successful store write. *)
Lemma phone_collection_saved (fl : option Flow) (wa : bool) (message : string)
    (w : World) (c f : string) :
  normalize_phone message = inr (c, f) -> save_oracle w = [] ->
  _handle_phone_collection fl wa message w =
  (inl (final_phone_message wa c
          (match completion_message (the_flow fl) with
           | Some x => x | None => default_completion end)),
   let s' := set_lead_data (dict_set "phone" c (lead_data (working w)))
                           (set_phone_collected c f (working w)) in
   mkWorld s' (Some s') []).
Proof.
  intros Hn Ho; destruct w as [sess sto orc]; cbn in Ho; subst orc.
  cbv beta iota zeta delta [_handle_phone_collection try_except bind ret modify
                            get_session save_user_session].
  rewrite Hn; reflexivity.
Qed.

(** X2. On the phone route of [process_message], when the store write
    succeeds, the stored session has [phone_submitted] true, the
    number's digits as [phone_number] and as [lead_data["phone"]], its
    [fallback_step] unchanged, and the reply is the confirmation
    message built from those digits. *)
Theorem phone_route_stores_number (fl : option Flow) (ai : ai_outcome) (wa : bool)
    (message sid : string) (phone : option string) (plat : string)
    (w : World) (S : Session) :
  store w = Some S -> save_oracle w = [] ->
  fallback_completed S = true -> phone_submitted S = false ->
  _is_phone_number message = true ->
  let d := Str.filter_str Str.is_digit message in
  let (r, w') := process_message fl ai wa message sid phone plat w in
  result_get "response" (result_of r) =
    Some (PStr (final_phone_message wa d
                  (match completion_message (the_flow fl) with
                   | Some x => x | None => default_completion end))) /\
  exists S', store w' = Some S' /\ phone_submitted S' = true /\
             phone_number S' = Some d /\ dict_get "phone" (lead_data S') = Some d /\
             fallback_step S' = fallback_step S.
Proof.
  intros Hst Ho Hc Hp Hph d.
  destruct (phone_number_normalizes message Hph) as [f Hn].
  destruct (loaded_session_fields phone S) as [Hc1 [Hp1 [_ [_ Hf1]]]].
  unfold process_message, try_except at 1, bind at 1.
  rewrite (get_or_create_stored sid plat phone w S Hst); cbv beta iota.
  rewrite Hc1, Hp1, Hc, Hp, Hph; cbn [andb negb].
  unfold bind at 1.
  rewrite (phone_collection_saved fl wa message _ _ _ Hn) by (cbn; exact Ho).
  cbn; split; [reflexivity |].
  eexists; split; [reflexivity |].
  split; [reflexivity | split; [reflexivity | split; [apply dict_get_set_same | exact Hf1]]].
Qed.

(** ** The answer validators, step by step *)

(** X3. At step 4 every answer that is not blank is accepted: the
    normalised answer ("Sim", "Não" or the stripped text) always passes
    [_should_advance_step]. *)
Theorem step4_accepts_any_nonblank (answer : string) :
  Str.truthy (Str.strip answer) = true ->
  _should_advance_step (_validate_and_normalize_answer answer 4) 4 = true.
Proof.
  intros H; unfold _validate_and_normalize_answer.
  change (4 =? 1) with false; change (4 =? 2) with false;
    change (4 =? 3) with false; change (4 =? 4) with true; cbv beta iota zeta.
  destruct (existsb _ yes_words); [reflexivity |].
  destruct (existsb _ no_words); [reflexivity |].
  unfold _should_advance_step; rewrite strip_idem; cbv zeta.
  pose proof (truthy_len _ H) as Hl.
  destruct (Nat.ltb_spec (Str.len (Str.strip answer)) 1); [lia |].
  change (4 =? 1) with false; change (4 =? 2) with false;
    change (4 =? 3) with false; change (4 =? 4) with true; cbv beta iota.
  apply Nat.leb_le; exact Hl.
Qed.



(** X5. At step 3 the stripped answer is stored and accepted exactly
    when it has at least 5 characters, while the re-prompt of step 3
    asks for at least 3: answers of 3 or 4 characters are rejected
    with a message they already satisfy. *)
Theorem step3_needs_five_chars (answer : string) :
  _should_advance_step (_validate_and_normalize_answer answer 3) 3 =
    (5 <=? Str.len (Str.strip answer))%nat /\
  Str.contains "3 caracteres" (_get_validation_message 3) = true.
Proof.
  split; [| vm_compute; reflexivity].
  unfold _validate_and_normalize_answer.
  change (3 =? 1) with false; change (3 =? 2) with false; change (3 =? 3) with true;
    cbv beta iota zeta.
  unfold _should_advance_step; rewrite strip_idem; cbv zeta.
  change (3 =? 1) with false; change (3 =? 2) with false; change (3 =? 3) with true;
    cbv beta iota.
  destruct (Str.len (Str.strip answer)) as [|[|[|[|[|k]]]]]; reflexivity.
Qed.


(** ** The AI outcome of a turn and the stored session *)

Lemma loaded_session_lead (phone : option string) (S : Session) :
  lead_data (loaded_session phone S) = lead_data S.
Proof. unfold loaded_session; destruct phone as [p|]; [destruct (Str.truthy p)|]; reflexivity. Qed.

(** X7. A turn off the phone route whose AI call times out or raises
    (on a session with the AI enabled, every store write succeeding)
    is answered by the fallback flow and stores the session with
    [gemini_available] false. *)
Theorem ai_failure_disables_ai (fl : option Flow) (ai : ai_outcome) (wa : bool)
    (message sid : string) (phone : option string) (plat : string)
    (w : World) (S : Session) :
  store w = Some S -> save_oracle w = [] ->
  fallback_completed S && negb (phone_submitted S) && _is_phone_number message = false ->
  gemini_available S = true ->
  (ai = AITimeout \/ exists msg, ai = AIRaise msg) ->
  let (r, w') := process_message fl ai wa message sid phone plat w in
  result_get "response_type" (result_of r) = Some (PStr "fallback_firebase") /\
  exists S', store w' = Some S' /\ gemini_available S' = false.
Proof.
  intros Hst Horc Hroute Hg Hai.
  destruct (loaded_session_fields phone S) as [Hc1 [Hp1 [_ [Hg1 _]]]].
  destruct w as [sess sto orc]; cbn in Hst, Horc; subst sto orc.
  unfold process_message, try_except at 1, bind at 1.
  rewrite (get_or_create_stored sid plat phone (mkWorld sess (Some S) []) S eq_refl).
  cbv beta iota; cbn [save_oracle]; rewrite Hc1, Hp1, Hroute.
  rewrite <- Hg1 in Hg; clear Hc1 Hp1 Hg1.
  revert Hg; generalize (loaded_session phone S) as S1; intros S1 Hg.
  destruct Hai as [-> | [msg ->]];
    repeat (turn_reduce; rewrite ?Hg; split_innermost); turn_reduce.
  all: try solve [exfalso; cbn in *; congruence].
  all: split; [reflexivity | eexists; split; reflexivity].
Qed.

(** X8. When the AI answers with nothing usable (no text, or a text
    that fails the validation of [_attempt_gemini_response]), the turn
    is answered by the fallback flow and reports [gemini_available]
    false, while the stored session keeps [gemini_available] true. *)
Theorem invalid_ai_reply_keeps_ai_enabled (fl : option Flow) (ai : ai_outcome) (wa : bool)
    (message sid : string) (phone : option string) (plat : string)
    (w : World) (S : Session) :
  store w = Some S -> save_oracle w = [] ->
  fallback_completed S && negb (phone_submitted S) && _is_phone_number message = false ->
  gemini_available S = true ->
  (ai = AIReturn None \/ exists r, ai = AIReturn (Some r) /\ valid_ai_response r = false) ->
  let (r, w') := process_message fl ai wa message sid phone plat w in
  result_get "response_type" (result_of r) = Some (PStr "fallback_firebase") /\
  result_get "gemini_available" (result_of r) = Some (PBool false) /\
  exists S', store w' = Some S' /\ gemini_available S' = true.
Proof.
  intros Hst Horc Hroute Hg Hai.
  destruct (loaded_session_fields phone S) as [Hc1 [Hp1 [_ [Hg1 _]]]].
  destruct w as [sess sto orc]; cbn in Hst, Horc; subst sto orc.
  unfold process_message, try_except at 1, bind at 1.
  rewrite (get_or_create_stored sid plat phone (mkWorld sess (Some S) []) S eq_refl).
  cbv beta iota; cbn [save_oracle]; rewrite Hc1, Hp1, Hroute.
  rewrite <- Hg1 in Hg; clear Hc1 Hp1 Hg1.
  revert Hg; generalize (loaded_session phone S) as S1; intros S1 Hg.
  destruct Hai as [-> | [r [-> Hv]]];
    repeat (turn_reduce; rewrite ?Hg, ?Hv; split_innermost); turn_reduce.
  all: try solve [exfalso; cbn in *; congruence].
  all: split; [reflexivity | split; [reflexivity | eexists; split; [reflexivity |]]].
  all: cbn; assumption.
Qed.

(** X9. A turn answered by the AI (a valid reply, the AI enabled, off
    the phone route, every store write succeeding) returns the reply as
    [ai_intelligent] and stores the session with its count plus one and
    the reply as [last_response], leaving the fallback flow untouched:
    [fallback_step], [fallback_completed] and [lead_data] are as
    stored before the turn. *)
Theorem ai_turn_leaves_flow (fl : option Flow) (wa : bool) (r : string)
    (message sid : string) (phone : option string) (plat : string)
    (w : World) (S : Session) :
  store w = Some S -> save_oracle w = [] ->
  fallback_completed S && negb (phone_submitted S) && _is_phone_number message = false ->
  gemini_available S = true -> valid_ai_response r = true ->
  let (res, w') := process_message fl (AIReturn (Some r)) wa message sid phone plat w in
  result_get "response_type" (result_of res) = Some (PStr "ai_intelligent") /\
  result_get "response" (result_of res) = Some (PStr r) /\
  exists S', store w' = Some S' /\
             fallback_step S' = fallback_step S /\
             fallback_completed S' = fallback_completed S /\
             lead_data S' = lead_data S /\
             message_count S' = message_count S + 1 /\
             last_response S' = Some r.
Proof.
  intros Hst Horc Hroute Hg Hv.
  assert (Ht : Str.truthy r = true).
  { unfold valid_ai_response in Hv; destruct (Str.truthy r); [reflexivity | discriminate]. }
  destruct (loaded_session_fields phone S) as [Hc1 [Hp1 [Hm1 [Hg1 Hf1]]]].
  pose proof (loaded_session_lead phone S) as Hl1.
  destruct w as [sess sto orc]; cbn in Hst, Horc; subst sto orc.
  unfold process_message, try_except at 1, bind at 1.
  rewrite (get_or_create_stored sid plat phone (mkWorld sess (Some S) []) S eq_refl).
  cbv beta iota; cbn [save_oracle]; rewrite Hc1, Hp1, Hroute.
  rewrite <- Hg1 in Hg; rewrite <- Hf1, <- Hm1, <- Hl1.
  assert (Hcd : fallback_completed (loaded_session phone S) = fallback_completed S)
    by exact Hc1.
  rewrite <- Hcd; clear Hc1 Hp1 Hg1 Hf1 Hm1 Hl1 Hcd.
  revert Hg; generalize (loaded_session phone S) as S1; intros S1 Hg.
  repeat (turn_reduce; rewrite ?Hg, ?Hv, ?Ht; split_innermost); turn_reduce.
  all: try solve [exfalso; cbn in *; congruence].
  all: split; [reflexivity | split; [reflexivity | eexists; split; [reflexivity |]]].
  all: cbn; repeat split.
Qed.

(** X19. With a flow that has no steps and the AI disabled for the
    session, every turn off the phone route is answered with the fixed
    name question and leaves [fallback_step], [fallback_completed] and
    [lead_data] as stored: the flow never starts. *)
Theorem empty_flow_never_starts (fl : option Flow) (ai : ai_outcome) (wa : bool)
    (message sid : string) (phone : option string) (plat : string)
    (w : World) (S : Session) :
  store w = Some S -> save_oracle w = [] ->
  fallback_completed S && negb (phone_submitted S) && _is_phone_number message = false ->
  gemini_available S = false -> steps (the_flow fl) = [] ->
  let (res, w') := process_message fl ai wa message sid phone plat w in
  result_get "response" (result_of res) = Some (PStr name_question) /\
  exists S', store w' = Some S' /\
             fallback_step S' = fallback_step S /\
             fallback_completed S' = fallback_completed S /\
             lead_data S' = lead_data S.
Proof.
  intros Hst Horc Hroute Hg Hsteps.
  destruct (loaded_session_fields phone S) as [Hc1 [Hp1 [_ [Hg1 Hf1]]]].
  pose proof (loaded_session_lead phone S) as Hl1.
  destruct w as [sess sto orc]; cbn in Hst, Horc; subst sto orc.
  unfold process_message, try_except at 1, bind at 1.
  rewrite (get_or_create_stored sid plat phone (mkWorld sess (Some S) []) S eq_refl).
  cbv beta iota; cbn [save_oracle]; rewrite Hc1, Hp1, Hroute.
  rewrite <- Hg1 in Hg; rewrite <- Hf1, <- Hl1.
  assert (Hcd : fallback_completed (loaded_session phone S) = fallback_completed S)
    by exact Hc1.
  rewrite <- Hcd; clear Hc1 Hp1 Hg1 Hf1 Hl1 Hcd.
  revert Hg; generalize (loaded_session phone S) as S1; intros S1 Hg.
  repeat (turn_reduce; rewrite ?Hg, ?Hsteps; split_innermost); turn_reduce.
  all: try solve [exfalso; cbn in *; congruence].
  all: split; [reflexivity | eexists; split; [reflexivity |]].
  all: cbn; repeat split.
Qed.

(** ** [handle_phone_number_submission] *)

Lemma phone_number_rejects (message : string) :
  _is_phone_number message = false -> normalize_phone message = inl invalid_phone_msg.
Proof.
  unfold _is_phone_number, normalize_phone; cbv zeta; intros H.
  apply andb_false_iff in H as [H | H]; apply Nat.leb_gt in H.
  - rewrite (proj2 (Nat.ltb_lt _ _) H); reflexivity.
  - rewrite (proj2 (Nat.ltb_lt 13 _) H), orb_true_r; reflexivity.
Qed.

(** X10. A web phone submission for a session that is not in the
    store, with a valid number, reports [status] "success" and
    [phone_submitted] true but carries the handler's error message, and
    nothing is stored: the [{}] session has no [lead_data]. *)
Theorem submission_without_session_saves_nothing (fl : option Flow) (wa : bool)
    (phone_number sid : string) (w : World) :
  store w = None -> _is_phone_number phone_number = true ->
  handle_phone_number_submission fl wa phone_number sid w =
  (inl [("status", PStr "success"); ("message", PStr phone_error_msg);
        ("phone_submitted", PBool true)], w).
Proof.
  intros Hst Hph; destruct (phone_number_normalizes phone_number Hph) as [f Hn].
  destruct w as [sess sto orc]; cbn in Hst; subst sto.
  cbv beta iota zeta delta [handle_phone_number_submission phone_collection_on_empty
                            try_except bind get_user_session ret raise store].
  rewrite Hn; reflexivity.
Qed.

(** X11. A web phone submission with an invalid number (fewer than 10
    or more than 13 digits) reports [status] "success" and
    [phone_submitted] true, its message is the invalid-number
    re-prompt, and the store is left as it was. *)
Theorem submission_invalid_number (fl : option Flow) (wa : bool)
    (phone_number sid : string) (w : World) :
  _is_phone_number phone_number = false ->
  let (r, w') := handle_phone_number_submission fl wa phone_number sid w in
  r = inl [("status", PStr "success"); ("message", PStr invalid_phone_msg);
           ("phone_submitted", PBool true)] /\
  store w' = store w.
Proof.
  intros Hph; pose proof (phone_number_rejects phone_number Hph) as Hn.
  destruct w as [sess [S|] orc];
    cbv beta iota zeta delta [handle_phone_number_submission phone_collection_on_empty
                              _handle_phone_collection try_except bind
                              get_user_session put_session ret raise store];
    rewrite Hn; split; reflexivity.
Qed.

(** X12. A web phone submission for a stored session with a valid
    number, the store write succeeding, reports success with the
    confirmation message and stores the session with [phone_submitted]
    true and the digits as [phone_number] and [lead_data["phone"]]. *)
Theorem submission_stores_number (fl : option Flow) (wa : bool)
    (number sid : string) (w : World) (S : Session) :
  store w = Some S -> save_oracle w = [] -> _is_phone_number number = true ->
  let d := Str.filter_str Str.is_digit number in
  let (r, w') := handle_phone_number_submission fl wa number sid w in
  r = inl [("status", PStr "success");
           ("message", PStr (final_phone_message wa d
                               (match completion_message (the_flow fl) with
                                | Some x => x | None => default_completion end)));
           ("phone_submitted", PBool true)] /\
  exists S', store w' = Some S' /\ phone_submitted S' = true /\
             phone_number S' = Some d /\ dict_get "phone" (lead_data S') = Some d.
Proof.
  intros Hst Ho Hph d; destruct (phone_number_normalizes number Hph) as [f Hn].
  destruct w as [sess sto orc]; cbn in Hst, Ho; subst sto orc.
  cbv beta iota zeta delta [handle_phone_number_submission try_except bind
                            get_user_session put_session ret store].
  rewrite (phone_collection_saved fl wa number _ _ _ Hn) by reflexivity.
  cbv beta iota; split; [reflexivity |].
  eexists; split; [reflexivity |].
  split; [reflexivity | split; [reflexivity | apply dict_get_set_same]].
Qed.

(** ** The lead record *)

Definition step_le (x y : Step) : Prop := step_id x <= step_id y.

Lemma In_insert_step_r (x st : Step) (l : list Step) :
  st = x \/ In st l -> In st (insert_step x l).
Proof.
  induction l as [|y l IH]; cbn; [intuition |].
  destruct (step_id x <=? step_id y); cbn; [intuition |].
  intros [H | [H | H]]; [right; apply IH; left; exact H | left; exact H |].
  right; apply IH; right; exact H.
Qed.

Lemma In_sort_steps_r (st : Step) (l : list Step) : In st l -> In st (sort_steps l).
Proof.
  induction l as [|x l IH]; cbn; [intuition |].
  intros [H | H]; apply In_insert_step_r; [left; symmetry; exact H | right; apply IH, H].
Qed.

Lemma insert_step_sorted (x : Step) (l : list Step) :
  StronglySorted step_le l -> StronglySorted step_le (insert_step x l).
Proof.
  induction l as [|y l IH]; intros H; cbn.
  - constructor; [constructor | constructor].
  - inversion H as [|y' l' Hl Hy]; subst.
    destruct (Z.leb_spec (step_id x) (step_id y)) as [Hxy | Hxy].
    + constructor; [exact H |].
      constructor; [exact Hxy |].
      apply Forall_forall; intros z Hz.
      pose proof (proj1 (Forall_forall _ _) Hy z Hz); unfold step_le in *; lia.
    + constructor; [apply IH, Hl |].
      apply Forall_forall; intros z Hz.
      destruct (In_insert_step x z l Hz) as [-> | Hz']; unfold step_le.
      * lia.
      * exact (proj1 (Forall_forall _ _) Hy z Hz').
Qed.

Lemma sort_steps_sorted (l : list Step) : StronglySorted step_le (sort_steps l).
Proof.
  induction l as [|x l IH]; cbn; [constructor | apply insert_step_sorted, IH].
Qed.

Lemma In_lead_entries (lead : dict) (l : list Step) (p : Z * string) :
  In p (flat_map (lead_answer_of lead) l) <->
  exists st a, In st l /\ p = (step_id st, a) /\
               dict_get ("step_" ++ Str.show_Z (step_id st)) lead = Some a /\
               Str.truthy a = true.
Proof.
  rewrite in_flat_map; unfold lead_answer_of; split.
  - intros [st [Hin Hp]].
    destruct (dict_get _ lead) as [a|] eqn:E; [|destruct Hp].
    destruct (Str.truthy a) eqn:T; [|destruct Hp].
    destruct Hp as [<- | []]; exists st, a; repeat split; assumption.
  - intros [st [a [Hin [-> [E T]]]]]; exists st; split; [exact Hin |].
    rewrite E, T; left; reflexivity.
Qed.

Lemma lead_entries_sorted (lead : dict) (l : list Step) :
  StronglySorted step_le l ->
  StronglySorted (fun p q : Z * string => fst p <= fst q) (flat_map (lead_answer_of lead) l).
Proof.
  induction 1 as [|x l Hl IH Hx]; cbn; [constructor |].
  unfold lead_answer_of at 1.
  destruct (dict_get _ lead) as [a|]; [destruct (Str.truthy a)|]; cbn; try exact IH.
  constructor; [exact IH |].
  apply Forall_forall; intros p Hp.
  apply In_lead_entries in Hp as [st [b [Hin [-> _]]]]; cbn.
  exact (proj1 (Forall_forall _ _) Hx st Hin).
Qed.

(** X13. For an accepted number, the lead record sent to
    [save_lead_data] ends with the phone under id [len(steps) + 1];
    before it come exactly the pairs (id, answer) of the flow's steps
    whose [lead_data] answer is a non-empty string, in ascending id
    order. *)
Theorem lead_answers_layout (flow_steps : list Step) (lead : dict) (phone_clean : string) :
  Str.truthy phone_clean = true ->
  exists pre,
    _lead_answers flow_steps lead phone_clean =
      (pre ++ [(Z.of_nat (List.length flow_steps) + 1, phone_clean)])%list /\
    (forall i a, In (i, a) pre <->
       exists st, In st flow_steps /\ step_id st = i /\
                  dict_get ("step_" ++ Str.show_Z i) lead = Some a /\ Str.truthy a = true) /\
    StronglySorted (fun p q : Z * string => fst p <= fst q) pre.
Proof.
  intros Hc; exists (flat_map (lead_answer_of lead) (sort_steps flow_steps)).
  split; [unfold _lead_answers; rewrite Hc; reflexivity |].
  split; [| apply lead_entries_sorted, sort_steps_sorted].
  intros i a; rewrite In_lead_entries; split.
  - intros [st [b [Hin [Hp [E T]]]]]; injection Hp as -> ->.
    exists st; repeat split; [apply In_sort_steps, Hin | exact E | exact T].
  - intros [st [Hin [<- [E T]]]]; exists st, a.
    repeat split; [apply In_sort_steps_r, Hin | exact E | exact T].
Qed.

(** X14. The phone's id [len(steps) + 1] is not reserved: when the
    flow has a step with that id (step ids with a gap, such as 2 and
    3) and that step has a stored answer, the lead record holds two
    entries with the same id, the answer and the phone. *)
Theorem lead_phone_id_clash (flow_steps : list Step) (lead : dict) (phone_clean : string)
    (st : Step) (a : string) :
  Str.truthy phone_clean = true -> In st flow_steps ->
  step_id st = Z.of_nat (List.length flow_steps) + 1 ->
  dict_get ("step_" ++ Str.show_Z (step_id st)) lead = Some a -> Str.truthy a = true ->
  exists pre,
    _lead_answers flow_steps lead phone_clean =
      (pre ++ [(step_id st, phone_clean)])%list /\
    In (step_id st, a) pre.
Proof.
  intros Hc Hin Hid E T.
  exists (flat_map (lead_answer_of lead) (sort_steps flow_steps)).
  split; [unfold _lead_answers; rewrite Hc, Hid; reflexivity |].
  apply In_lead_entries; exists st, a.
  repeat split; [apply In_sort_steps_r, Hin | exact E | exact T].
Qed.

(** ** The health probe and the service status *)

Lemma health_flag_active (o : health_outcome) :
  snd (get_gemini_health_status o) = status_is_active (fst (get_gemini_health_status o)).
Proof.
  destruct o as [[r|] [msg|] | | msg]; cbv zeta; cbn [get_gemini_health_status];
    repeat match goal with
           | |- context [if ?b then _ else _] => destruct b
           end; reflexivity.
Qed.

(** X15. Every outcome of the health probe sets [self.gemini_available]
    to the [available] field it reports, and that is true exactly when
    the reported [status] is "active". *)
Theorem health_flag_matches_report (o : health_outcome) :
  let (d, flag) := get_gemini_health_status o in
  result_get "available" d = Some (PBool flag) /\
  (flag = true <-> result_get "status" d = Some (PStr "active")).
Proof.
  destruct o as [[r|] [msg|] | | msg]; cbv zeta; cbn [get_gemini_health_status];
    repeat match goal with
           | |- context [if ?b then _ else _] => destruct b
           end;
    cbn; (split; [reflexivity | split; intros H; first [reflexivity | discriminate H]]).
Qed.

(** X16. The health probe and the per-turn validation disagree on
    replies that look like quota errors: a non-blank reply containing a
    quota indicator (such as "Quota exceeded") makes the probe report
    "active" and set the flag, while [_attempt_gemini_response] rejects
    the same reply and the turn falls back. *)
Theorem health_accepts_quota_like_reply (r : string) (w : World) :
  Str.truthy (Str.strip r) = true -> _is_quota_error r = true ->
  gemini_available (working w) = true ->
  get_gemini_health_status (HReply (Some r) None) =
    (health_dict "active" true "Gemini AI is operational", true) /\
  fst (_attempt_gemini_response (AIReturn (Some r)) w) = inl None.
Proof.
  intros Hs Hq Hg; pose proof (strip_truthy r Hs) as Ht.
  split; [cbn [get_gemini_health_status]; rewrite Ht, Hs; reflexivity |].
  destruct w as [sess sto orc]; cbn [working] in Hg.
  cbv beta iota zeta delta [_attempt_gemini_response call_ai try_except bind get_session
                            ret working].
  rewrite Hg; cbv beta iota.
  unfold valid_ai_response; rewrite Hq, andb_false_r; reflexivity.
Qed.

(** X17. An exception from the probe, or from its session cleanup
    after any reply, is classified as [_is_quota_error] classifies its
    text (lowering it first changes nothing): "quota_exceeded" for a
    quota error, "error" otherwise, with the text in the message; the
    flag is set to false. *)
Theorem health_exception_classification (msg : string) (reply : option string) :
  get_gemini_health_status (HReply reply (Some msg)) = get_gemini_health_status (HRaise msg) /\
  get_gemini_health_status (HRaise msg) =
    (if _is_quota_error msg
     then health_dict "quota_exceeded" false ("Gemini API quota exceeded: " ++ msg)
     else health_dict "error" false ("Gemini AI error: " ++ msg), false).
Proof.
  split; [reflexivity |].
  cbn [get_gemini_health_status].
  replace (_is_quota_error (Str.lower msg)) with (_is_quota_error msg)
    by (unfold _is_quota_error; rewrite lower_idem; reflexivity).
  destruct (_is_quota_error msg); reflexivity.
Qed.

(** X18. When the Firebase status is read, the service report carries
    the probe's dict as [ai_status], sets the flag as the probe does,
    and its top-level [fallback_mode] is the negation of
    [features.ai_responses]; [features.fallback_mode] is true exactly
    when the overall status is "degraded", and the overall status is
    "active" exactly when the flow and AI features are both on. *)
Theorem overall_status_consistent (fs : result) (h : health_outcome) (gemini_flag : bool) :
  let (st, flag') := get_overall_service_status (FBStatus fs) h gemini_flag in
  ai_status st = fst (get_gemini_health_status h) /\
  flag' = snd (get_gemini_health_status h) /\
  status_fallback_mode st = negb (ai_responses (features st)) /\
  (fallback_mode_feature (features st) = true <-> overall_status st = "degraded") /\
  (overall_status st = "active" <->
   conversation_flow (features st) = true /\ ai_responses (features st) = true).
Proof.
  pose proof (health_flag_active h) as Hf.
  cbn [get_overall_service_status].
  destruct (get_gemini_health_status h) as [ai_st f]; cbn in Hf |- *; subst f.
  split; [reflexivity | split; [reflexivity | split; [reflexivity |]]].
  destruct (status_is_active fs), (status_is_active ai_st); cbn;
    (split; [split; intros H; first [reflexivity | discriminate H | tauto] |
             split; [intros H; first [split; reflexivity | discriminate H] |
                     intros [H1 H2]; first [reflexivity | discriminate H1 | discriminate H2]]]).
Qed.

(** ** The flow cache *)

Lemma timedelta_seconds_days (d r : Z) :
  0 <= d -> 0 <= r < 86400000000 ->
  timedelta_seconds (d * 86400000000 + r) = r / 1000000.
Proof.
  intros Hd Hr; unfold timedelta_seconds.
  rewrite Z.add_comm, Z_mod_plus_full, Z.mod_small by lia; reflexivity.
Qed.

(** X20. A cached flow is served without calling
    [get_conversation_flow] whenever the time since it was cached is a
    whole number of days plus at most 300 seconds: [timedelta.seconds]
    drops the days, so a cache loaded days ago still counts as fresh. *)
Theorem cache_reused_modulo_days (loaded : option Flow) (now_check now_loaded : Z)
    (f : Flow) (ts d r : Z) :
  0 <= d -> 0 <= r < 301000000 -> now_check - ts = d * 86400000000 + r ->
  get_firebase_flow_cached loaded now_check now_loaded (mkFlowCache (Some f) (Some ts)) =
    (f, mkFlowCache (Some f) (Some ts)).
Proof.
  intros Hd Hr Hdelta; unfold get_firebase_flow_cached; cbn [firebase_flow_cache cache_timestamp].
  rewrite Hdelta, timedelta_seconds_days by lia.
  assert (Hq : r / 1000000 < 301) by (apply Z.div_lt_upper_bound; lia).
  replace (300 <? r / 1000000) with false by (symmetry; apply Z.ltb_ge; lia).
  reflexivity.
Qed.

(** X21. When the cache is due for a reload (empty, or more than 300
    seconds past a whole number of days), a successful load caches
    the flow with the second time reading and returns it, and a failed
    load returns the built-in default flow and leaves the cache as it
    was, so the next call tries again. *)
Theorem cache_reload (now_check now_loaded : Z) (c : FlowCache) (g : Flow) :
  (firebase_flow_cache c = None \/ cache_timestamp c = None \/
   exists ts, cache_timestamp c = Some ts /\ 300 < timedelta_seconds (now_check - ts)) ->
  get_firebase_flow_cached (Some g) now_check now_loaded c =
    (g, mkFlowCache (Some g) (Some now_loaded)) /\
  get_firebase_flow_cached None now_check now_loaded c = (default_flow, c).
Proof.
  intros H; destruct c as [[f|] [ts|]]; cbn in H |- *;
    try (split; reflexivity).
  destruct H as [H | [H | [ts' [Hts Hlt]]]]; try discriminate.
  injection Hts as <-; rewrite (proj2 (Z.ltb_lt _ _) Hlt); split; reflexivity.
Qed.

(** ** Instances of the further properties *)

Definition ai_session : Session := new_session "s1" "web".

Definition ai_world : World := mkWorld ai_session (Some ai_session) [].

Definition awaiting_phone_session : Session :=
  mkSession "s1" "web" [("step_1", "Ana Souza")] 5 (Some 4) false false true
            None None None None.

(** X2 at a session that finished the flow, with a formatted number. *)
Lemma phone_route_stores_number_witness :
  let (r, w') := process_message None (AIRaise "429") true "11 98765-4321" "s1" None "web"
                   world_awaiting_phone in
  result_get "response" (result_of r) =
    Some (PStr (final_phone_message true "11987654321"
                  (match completion_message (the_flow None) with
                   | Some x => x | None => default_completion end))) /\
  exists S', store w' = Some S' /\ phone_submitted S' = true /\
             phone_number S' = Some "11987654321" /\
             dict_get "phone" (lead_data S') = Some "11987654321" /\
             fallback_step S' = fallback_step awaiting_phone_session.
Proof.
  exact (phone_route_stores_number None (AIRaise "429") true "11 98765-4321" "s1" None "web"
           world_awaiting_phone awaiting_phone_session
           eq_refl eq_refl eq_refl eq_refl eq_refl).
Defined.

(** X3 at an answer that is neither yes nor no. *)
Lemma step4_accepts_any_nonblank_witness :
  _should_advance_step (_validate_and_normalize_answer " talvez " 4) 4 = true.
Proof. exact (step4_accepts_any_nonblank " talvez " eq_refl). Defined.



(** X7 at a fresh session whose AI call times out. *)
Lemma ai_failure_disables_ai_witness :
  let (r, w') := process_message None AITimeout true "oi" "s1" None "web" ai_world in
  result_get "response_type" (result_of r) = Some (PStr "fallback_firebase") /\
  exists S', store w' = Some S' /\ gemini_available S' = false.
Proof.
  exact (ai_failure_disables_ai None AITimeout true "oi" "s1" None "web" ai_world ai_session
           eq_refl eq_refl eq_refl eq_refl (or_introl eq_refl)).
Defined.

(** X8 at a fresh session whose AI call returns nothing. *)
Lemma invalid_ai_reply_keeps_ai_enabled_witness :
  let (r, w') := process_message None (AIReturn None) true "oi" "s1" None "web" ai_world in
  result_get "response_type" (result_of r) = Some (PStr "fallback_firebase") /\
  result_get "gemini_available" (result_of r) = Some (PBool false) /\
  exists S', store w' = Some S' /\ gemini_available S' = true.
Proof.
  exact (invalid_ai_reply_keeps_ai_enabled None (AIReturn None) true "oi" "s1" None "web"
           ai_world ai_session eq_refl eq_refl eq_refl eq_refl (or_introl eq_refl)).
Defined.

(** X9 at a fresh session and a plain reply. *)
Lemma ai_turn_leaves_flow_witness :
  let (res, w') := process_message None (AIReturn (Some "Ola, como posso ajudar?")) true
                     "oi" "s1" None "web" ai_world in
  result_get "response_type" (result_of res) = Some (PStr "ai_intelligent") /\
  result_get "response" (result_of res) = Some (PStr "Ola, como posso ajudar?") /\
  exists S', store w' = Some S' /\
             fallback_step S' = fallback_step ai_session /\
             fallback_completed S' = fallback_completed ai_session /\
             lead_data S' = lead_data ai_session /\
             message_count S' = message_count ai_session + 1 /\
             last_response S' = Some "Ola, como posso ajudar?".
Proof.
  exact (ai_turn_leaves_flow None true "Ola, como posso ajudar?" "oi" "s1" None "web"
           ai_world ai_session eq_refl eq_refl eq_refl eq_refl eq_refl).
Defined.

Definition empty_flow : Flow := mkFlow [] None.

Definition no_ai_world : World :=
  mkWorld (sample_session None []) (Some (sample_session None [])) [].

(** X19 at a loaded flow without steps. *)
Lemma empty_flow_never_starts_witness :
  let (res, w') := process_message (Some empty_flow) AITimeout true "oi" "s1" None "web"
                     no_ai_world in
  result_get "response" (result_of res) = Some (PStr name_question) /\
  exists S', store w' = Some S' /\
             fallback_step S' = fallback_step (sample_session None []) /\
             fallback_completed S' = fallback_completed (sample_session None []) /\
             lead_data S' = lead_data (sample_session None []).
Proof.
  exact (empty_flow_never_starts (Some empty_flow) AITimeout true "oi" "s1" None "web"
           no_ai_world (sample_session None []) eq_refl eq_refl eq_refl eq_refl eq_refl).
Defined.

(** X10 at an empty store. *)
Lemma submission_without_session_saves_nothing_witness :
  handle_phone_number_submission None true "11987654321" "s1"
    (mkWorld ai_session None []) =
  (inl [("status", PStr "success"); ("message", PStr phone_error_msg);
        ("phone_submitted", PBool true)], mkWorld ai_session None []).
Proof.
  exact (submission_without_session_saves_nothing None true "11987654321" "s1"
           (mkWorld ai_session None []) eq_refl eq_refl).
Defined.

(** X11 at a three-digit number. *)
Lemma submission_invalid_number_witness :
  let (r, w') := handle_phone_number_submission None true "123" "s1" world_awaiting_phone in
  r = inl [("status", PStr "success"); ("message", PStr invalid_phone_msg);
           ("phone_submitted", PBool true)] /\
  store w' = store world_awaiting_phone.
Proof.
  exact (submission_invalid_number None true "123" "s1" world_awaiting_phone eq_refl).
Defined.

(** X12 at a stored session and a formatted number. *)
Lemma submission_stores_number_witness :
  let (r, w') := handle_phone_number_submission None false "(11) 98765-4321" "s1"
                   world_awaiting_phone in
  r = inl [("status", PStr "success");
           ("message", PStr (final_phone_message false "11987654321"
                               (match completion_message (the_flow None) with
                                | Some x => x | None => default_completion end)));
           ("phone_submitted", PBool true)] /\
  exists S', store w' = Some S' /\ phone_submitted S' = true /\
             phone_number S' = Some "11987654321" /\
             dict_get "phone" (lead_data S') = Some "11987654321".
Proof.
  exact (submission_stores_number None false "(11) 98765-4321" "s1" world_awaiting_phone
           awaiting_phone_session eq_refl eq_refl eq_refl).
Defined.

(** X13 at the flow with step ids 1 and 3. *)
Lemma lead_answers_layout_witness :
  exists pre,
    _lead_answers (steps flow_1_3) [("step_3", "Contrato de aluguel")] "11987654321" =
      (pre ++ [(Z.of_nat (List.length (steps flow_1_3)) + 1, "11987654321")])%list /\
    (forall i a, In (i, a) pre <->
       exists st, In st (steps flow_1_3) /\ step_id st = i /\
                  dict_get ("step_" ++ Str.show_Z i) [("step_3", "Contrato de aluguel")] =
                    Some a /\ Str.truthy a = true) /\
    StronglySorted (fun p q : Z * string => fst p <= fst q) pre.
Proof.
  exact (lead_answers_layout (steps flow_1_3) [("step_3", "Contrato de aluguel")]
           "11987654321" eq_refl).
Defined.

(** X14 at the flow with step ids 2 and 3, step 3 answered. *)
Lemma lead_phone_id_clash_witness :
  exists pre,
    _lead_answers (steps flow_2_3) [("step_3", "Contrato de aluguel")] "11987654321" =
      (pre ++ [(step_id (mkStep 3 "Q3"), "11987654321")])%list /\
    In (step_id (mkStep 3 "Q3"), "Contrato de aluguel") pre.
Proof.
  exact (lead_phone_id_clash (steps flow_2_3) [("step_3", "Contrato de aluguel")]
           "11987654321" (mkStep 3 "Q3") "Contrato de aluguel"
           eq_refl (or_intror (or_introl eq_refl)) eq_refl eq_refl eq_refl).
Defined.

(** X16 at the reply "Quota exceeded" and a session with the AI enabled. *)
Lemma health_accepts_quota_like_reply_witness :
  get_gemini_health_status (HReply (Some "Quota exceeded") None) =
    (health_dict "active" true "Gemini AI is operational", true) /\
  fst (_attempt_gemini_response (AIReturn (Some "Quota exceeded")) ai_world) = inl None.
Proof.
  exact (health_accepts_quota_like_reply "Quota exceeded" ai_world eq_refl eq_refl eq_refl).
Defined.

(** X20 at a cache read exactly one day after it was filled. *)
Lemma cache_reused_modulo_days_witness :
  get_firebase_flow_cached (Some flow_1_3) 86400000000 86400000001
    (mkFlowCache (Some default_flow) (Some 0)) =
  (default_flow, mkFlowCache (Some default_flow) (Some 0)).
Proof.
  apply (cache_reused_modulo_days (Some flow_1_3) 86400000000 86400000001 default_flow 0 1 0);
    [lia | lia | reflexivity].
Defined.

(** X21 at an empty cache. *)
Lemma cache_reload_witness :
  get_firebase_flow_cached (Some flow_1_3) 5 6 (mkFlowCache None None) =
    (flow_1_3, mkFlowCache (Some flow_1_3) (Some 6)) /\
  get_firebase_flow_cached None 5 6 (mkFlowCache None None) =
    (default_flow, mkFlowCache None None).
Proof.
  exact (cache_reload 5 6 (mkFlowCache None None) flow_1_3 (or_introl eq_refl)).
Defined.
